(** * react-native-map-link: [index.js]

    A shallow embedding of the module: the provider tables ([apps],
    [prefixes], [titles]), the availability probe [isAppInstalled], the
    chooser [askAppChoice] and the entry point [showLocation], together with
    the part of the JavaScript runtime they rely on (values, truthiness,
    [typeof], [in], [parseFloat], number-to-string conversion and
    [encodeURIComponent]) and a small monad for the calls into React Native
    ([Linking], [ActionSheetIOS], [Alert]). *)

From Stdlib Require Import ZArith List String Ascii Bool Lia.
From Stdlib Require Import Floats.SpecFloat DecimalString.
Import ListNotations.
Set Warnings "-register-all".
Open Scope string_scope.
Open Scope Z_scope.

(** ** The JavaScript runtime *)

Module JS.

(** Numbers are IEEE 754 binary64 values; there is one NaN. *)
Definition number : Type := spec_float.
Definition prec : Z := 53.
Definition emax : Z := 1024.
Definition NaN : number := S754_nan.

(** Values.  Strings hold the UTF-8 bytes of well-formed text.  [VObject]
    is a plain object (an object literal): its own properties in insertion
    order, the first binding of a key being the one in force, and
    [Object.prototype] as its prototype.  [VFunction] is a built-in
    function object and [VObjectPrototype] is [Object.prototype] itself;
    both are only met as inherited members of plain objects. *)
Inductive value : Type :=
| VUndefined
| VNull
| VBool (b : bool)
| VNum (n : number)
| VStr (s : string)
| VObject (own : list (string * value))
| VFunction (name : string)
| VObjectPrototype.

Definition quote : string := String (ascii_of_nat 34) EmptyString.

(** ToBoolean *)
Definition truthy (v : value) : bool :=
  match v with
  | VUndefined | VNull => false
  | VBool b => b
  | VNum (S754_zero _) | VNum S754_nan => false
  | VNum _ => true
  | VStr s => negb (s =? EmptyString)%string
  | VObject _ | VFunction _ | VObjectPrototype => true
  end.

Definition typeof (v : value) : string :=
  match v with
  | VUndefined => "undefined"
  | VNull => "object"
  | VBool _ => "boolean"
  | VNum _ => "number"
  | VStr _ => "string"
  | VObject _ | VObjectPrototype => "object"
  | VFunction _ => "function"
  end.

(** *** Property lookup *)

Fixpoint assoc {A : Type} (k : string) (l : list (string * A)) : option A :=
  match l with
  | [] => None
  | (k', a) :: l' => if (k =? k')%string then Some a else assoc k l'
  end.

(** The properties of [Object.prototype]: eleven functions and the
    [__proto__] accessor.  None of them is enumerable. *)
Definition Object_prototype_functions : list string :=
  [ "constructor"; "hasOwnProperty"; "isPrototypeOf"; "propertyIsEnumerable";
    "toLocaleString"; "toString"; "valueOf"; "__defineGetter__";
    "__defineSetter__"; "__lookupGetter__"; "__lookupSetter__" ].

Definition is_function_member (k : string) : bool :=
  existsb (String.eqb k) Object_prototype_functions.

(** [k in Object.prototype] *)
Definition in_Object_prototype (k : string) : bool :=
  is_function_member k || (k =? "__proto__")%string.

(** [receiver[k]] for a member [k] found on [Object.prototype];
    [__proto__] answers the prototype of the receiver. *)
Definition inherited (receiver_is_prototype : bool) (k : string) : value :=
  if is_function_member k then VFunction k
  else if (k =? "__proto__")%string then
    if receiver_is_prototype then VNull else VObjectPrototype
  else VUndefined.

(** [k in o], for [o] an object: own properties, then the prototype chain. *)
Definition has (k : string) (o : value) : bool :=
  match o with
  | VObject own =>
    match assoc k own with
    | Some _ => true
    | None => in_Object_prototype k
    end
  | VObjectPrototype => in_Object_prototype k
  | _ => false
  end.

(** [o[k]], for [o] an object. *)
Definition get (o : value) (k : string) : value :=
  match o with
  | VObject own =>
    match assoc k own with
    | Some v => v
    | None => inherited false k
    end
  | VObjectPrototype => inherited true k
  | _ => VUndefined
  end.

(** The keys a [for (k in o)] loop visits: the enumerable properties, own
    ones in insertion order; nothing inherited from [Object.prototype] is
    enumerable. *)
Fixpoint keys (own : list (string * value)) (seen : list string) : list string :=
  match own with
  | [] => []
  | (k, _) :: own' =>
    if existsb (String.eqb k) seen then keys own' seen
    else k :: keys own' (k :: seen)
  end.

(** ToBoolean of [v.length], for the test [v && v.length]: the length of a
    string is zero exactly when it is empty; numbers and booleans have no
    [length]; an object answers with its property. *)
Definition length_truthy (v : value) : bool :=
  match v with
  | VStr s => negb (s =? EmptyString)%string
  | VObject _ | VObjectPrototype => truthy (get v "length")
  | VFunction k => (k =? "constructor")%string || (k =? "hasOwnProperty")%string
                   || (k =? "isPrototypeOf")%string || (k =? "propertyIsEnumerable")%string
                   || (k =? "__defineGetter__")%string || (k =? "__defineSetter__")%string
                   || (k =? "__lookupGetter__")%string || (k =? "__lookupSetter__")%string
  | _ => false
  end.

(** Strict equality with a string, as [Array.prototype.indexOf] and
    [switch] use it. *)
Definition strict_eq_string (v : value) (s : string) : bool :=
  match v with
  | VStr s' => (s' =? s)%string
  | _ => false
  end.

(** [l.indexOf(v) < 0] for an array of strings *)
Definition indexOf_lt_0 (l : list string) (v : value) : bool :=
  negb (existsb (strict_eq_string v) l).

(** [l.join(sep)] for an array of strings *)
Fixpoint join (sep : string) (l : list string) : string :=
  match l with
  | [] => EmptyString
  | [s] => s
  | s :: l' => (s ++ sep ++ join sep l')%string
  end.

(** *** Numbers and strings *)

(** The Number nearest to [m * 10^e], ties to even (the rounding of
    numeric literals). *)
Definition round_decimal (neg : bool) (m e : Z) : number :=
  match m with
  | Zpos p =>
    if e >=? 0
    then binary_normalize prec emax (if neg then - (m * 10 ^ e) else m * 10 ^ e) 0 false
    else match 10 ^ (- e) with
         | Zpos d => SFdiv prec emax (S754_finite neg p 0) (S754_finite false d 0)
         | _ => NaN
         end
  | _ => S754_zero neg
  end.

Definition string_of_Z (z : Z) : string :=
  NilZero.string_of_uint (N.to_uint (Z.to_N z)).

(** A positive finite Number [m * 2^e] as a fraction. *)
Definition ratio (m : positive) (e : Z) : Z * Z :=
  if e >=? 0 then (Zpos m * 2 ^ e, 1) else (Zpos m, 2 ^ (- e)).

Definition scale10 (x : Z * Z) (j : Z) : Z * Z :=
  if j >=? 0 then (fst x * 10 ^ j, snd x) else (fst x, snd x * 10 ^ (- j)).

(** The least [n' >= n] with [x < 10^n']. *)
Fixpoint magnitude (fuel : nat) (x : Z * Z) (n : Z) : Z :=
  match fuel with
  | O => n
  | S fuel' =>
    let '(a, b) := scale10 x (- n) in
    if a <? b then n else magnitude fuel' x (n + 1)
  end.

Definition same_finite (x y : number) : bool :=
  match x, y with
  | S754_finite s1 m1 e1, S754_finite s2 m2 e2 =>
    Bool.eqb s1 s2 && Pos.eqb m1 m2 && Z.eqb e1 e2
  | _, _ => false
  end.

(** The two integers around [x / 10^(n-k)], the nearer one first. *)
Definition candidates (x : Z * Z) (n k : Z) : list Z :=
  let '(a, b) := scale10 x (k - n) in
  let (q, r) := Z.div_eucl a b in
  match 2 * r ?= b with
  | Lt => [q; q + 1]
  | Gt => [q + 1; q]
  | Eq => if Z.even q then [q; q + 1] else [q + 1; q]
  end.

(** Number::toString, step 5: the least [k] and the [k]-digit [s] with
    [s * 10^(n-k)] reading back as [v]; the result is [(n, k, s)]. *)
Fixpoint shortest (fuel : nat) (v : number) (x : Z * Z) (n k : Z) : Z * Z * Z :=
  match fuel with
  | O => (n, k, hd 0 (candidates x n k))
  | S fuel' =>
    match filter (fun s => same_finite (round_decimal false s (n - k)) v)
                 (candidates x n k) with
    | s :: _ => if s =? 10 ^ k then (n + 1, 1, 1) else (n, k, s)
    | [] => shortest fuel' v x n (k + 1)
    end
  end.

Definition zeros (n : Z) : string :=
  string_of_list_ascii (repeat "0"%char (Z.to_nat n)).

(** Number::toString for a positive finite Number, steps 5 to 10. *)
Definition Number_toString_pos (m : positive) (e : Z) : string :=
  let x := ratio m e in
  let b := Z.pos (digits2_pos m) + e in
  let n0 := magnitude 8 x ((b - 1) * 30103 / 100000 - 1) in
  let '(n, k, s) := shortest 17 (S754_finite false m e) x n0 1 in
  let ds := string_of_Z s in
  if (k <=? n) && (n <=? 21) then (ds ++ zeros (n - k))%string
  else if (0 <? n) && (n <=? 21) then
    (substring 0 (Z.to_nat n) ds ++ "." ++
     substring (Z.to_nat n) (Z.to_nat (k - n)) ds)%string
  else if (-6 <? n) && (n <=? 0) then ("0." ++ zeros (- n) ++ ds)%string
  else
    let ex := ((if (n - 1 <? 0)%Z then "-" else "+") ++ string_of_Z (Z.abs (n - 1)))%string in
    if k =? 1 then (ds ++ "e" ++ ex)%string
    else (substring 0 1 ds ++ "." ++ substring 1 (Z.to_nat (k - 1)) ds ++ "e" ++ ex)%string.

(** Number::toString (radix 10) *)
Definition Number_toString (v : number) : string :=
  match v with
  | S754_nan => "NaN"
  | S754_zero _ => "0"
  | S754_infinity s => if s then "-Infinity" else "Infinity"
  | S754_finite s m e =>
    ((if s then "-" else EmptyString) ++ Number_toString_pos m e)%string
  end.

(** The name of the built-in function that [Object.prototype] holds under
    the member [k]: the member [constructor] is the function [Object], the
    other functions are named as their members. *)
Definition function_name (k : string) : string :=
  if (k =? "constructor")%string then "Object" else k.

(** ToString, for the values of this model.  An object converts as
    [Object.prototype.toString] has it; this is what JavaScript does for an
    object that does not redefine [toString].  An object with a [toString]
    of its own converts as that member decides, or the conversion throws a
    TypeError: the statements below that say what becomes of a coordinate
    are about requests whose coordinates are not such objects. *)
Definition ToString (v : value) : string :=
  match v with
  | VUndefined => "undefined"
  | VNull => "null"
  | VBool b => if b then "true" else "false"
  | VNum n => Number_toString n
  | VStr s => s
  | VObject _ | VObjectPrototype => "[object Object]"
  | VFunction k => ("function " ++ function_name k ++ "() { [native code] }")%string
  end.

(** *** parseFloat *)

Definition byte (c : ascii) : Z := Z.of_nat (nat_of_ascii c).

(** WhiteSpace and LineTerminator code points, in UTF-8. *)
Definition white1 (c : ascii) : bool :=
  let b := byte c in ((9 <=? b) && (b <=? 13)) || (b =? 32).

Definition white2 (c1 c2 : ascii) : bool :=
  (byte c1 =? 194) && (byte c2 =? 160).

Definition white3 (c1 c2 c3 : ascii) : bool :=
  let b1 := byte c1 in
  let b2 := byte c2 in
  let b3 := byte c3 in
  ((b1 =? 225) && (b2 =? 154) && (b3 =? 128))
  || ((b1 =? 226) && (b2 =? 128)
      && (((128 <=? b3) && (b3 <=? 138)) || (b3 =? 168) || (b3 =? 169) || (b3 =? 175)))
  || ((b1 =? 226) && (b2 =? 129) && (b3 =? 159))
  || ((b1 =? 227) && (b2 =? 128) && (b3 =? 128))
  || ((b1 =? 239) && (b2 =? 187) && (b3 =? 191)).

(** TrimString(inputString, start) *)
Fixpoint trim_start (s : string) : string :=
  match s with
  | EmptyString => s
  | String c1 s1 =>
    if white1 c1 then trim_start s1
    else
      match s1 with
      | EmptyString => s
      | String c2 s2 =>
        if white2 c1 c2 then trim_start s2
        else
          match s2 with
          | EmptyString => s
          | String c3 s3 => if white3 c1 c2 c3 then trim_start s3 else s
          end
      end
  end.

Definition is_digit (c : ascii) : bool :=
  let b := byte c in (48 <=? b) && (b <=? 57).

(** The longest run of decimal digits at the start of [s], read after the
    digits [acc]: its value, the number of digits read, and the rest. *)
Fixpoint digits (s : string) (acc count : Z) : Z * Z * string :=
  match s with
  | String c s' =>
    if is_digit c then digits s' (10 * acc + (byte c - 48)) (count + 1)
    else (acc, count, s)
  | EmptyString => (acc, count, s)
  end.

(** ExponentPart, when one starts [s]; 0 otherwise. *)
Definition exponent_part (s : string) : Z :=
  match s with
  | String c s1 =>
    if (byte c =? 101) || (byte c =? 69) then
      let '(neg, s2) :=
        match s1 with
        | String c' s2 =>
          if byte c' =? 45 then (true, s2)
          else if byte c' =? 43 then (false, s2)
          else (false, s1)
        | EmptyString => (false, s1)
        end in
      let '(x, count, _) := digits s2 0 0 in
      if count =? 0 then 0 else if neg then - x else x
    else 0
  | EmptyString => 0
  end.

(** The number of decimal digits of a positive [m] is at most this. *)
Definition digits10_bound (m : Z) : Z := Z.log2 m / 3 + 1.

(** The value of [m * 10^e] as a Number; magnitudes far outside the range
    of Numbers are decided without computing the power. *)
Definition decimal_value (neg : bool) (m e : Z) : number :=
  if m =? 0 then S754_zero neg
  else if 400 <? e then S754_infinity neg
  else if e + digits10_bound m <? -400 then S754_zero neg
  else round_decimal neg m e.

(** StrUnsignedDecimalLiteral: the longest prefix of [s] that is one. *)
Definition unsigned_literal (neg : bool) (s : string) : number :=
  if prefix "Infinity" s then S754_infinity neg
  else
    let '(i, ni, s1) := digits s 0 0 in
    let '(m, nf, s2) :=
      match s1 with
      | String c s1' =>
        if byte c =? 46 then
          let '(m, nf, s2) := digits s1' i 0 in
          if (ni =? 0) && (nf =? 0) then (i, 0, s1) else (m, nf, s2)
        else (i, 0, s1)
      | EmptyString => (i, 0, s1)
      end in
    if (ni =? 0) && (nf =? 0) then NaN
    else decimal_value neg m (exponent_part s2 - nf).

(** [parseFloat(string)] *)
Definition parseFloat_string (input : string) : number :=
  match trim_start input with
  | String c s' =>
    if byte c =? 45 then unsigned_literal true s'
    else if byte c =? 43 then unsigned_literal false s'
    else unsigned_literal false (String c s')
  | EmptyString => NaN
  end.

Definition parseFloat (v : value) : number := parseFloat_string (ToString v).

(** *** encodeURIComponent *)

Definition hex_digit (n : Z) : ascii :=
  ascii_of_nat (Z.to_nat (if n <? 10 then 48 + n else 55 + n)).

(** uriUnreserved: letters, digits and [- _ . ! ~ * ' ( )]. *)
Definition unreserved (c : ascii) : bool :=
  let b := byte c in
  ((65 <=? b) && (b <=? 90)) || ((97 <=? b) && (b <=? 122)) || is_digit c
  || (b =? 45) || (b =? 95) || (b =? 46) || (b =? 33) || (b =? 126)
  || (b =? 42) || (b =? 39) || (b =? 40) || (b =? 41).

(** [encodeURIComponent(s)]: every byte of the UTF-8 encoding that is not
    unreserved becomes [%XX]. *)
Fixpoint encodeURIComponent (s : string) : string :=
  match s with
  | EmptyString => EmptyString
  | String c s' =>
    if unreserved c then String c (encodeURIComponent s')
    else String "%"%char
           (String (hex_digit (byte c / 16))
              (String (hex_digit (byte c mod 16)) (encodeURIComponent s')))
  end.

End JS.

Import JS.

(** ** Calls into React Native *)

Module RN.

(** How a promise returned by the platform settles. *)
Inductive settled : Type :=
| Resolved (v : value)
| Rejected (reason : value).

(** The first argument of [ActionSheetIOS.showActionSheetWithOptions]. *)
Record action_sheet : Type := {
  sheet_title : value;
  sheet_message : value;
  sheet_options : list value;
  cancelButtonIndex : Z
}.

(** A button of [Alert.alert], without its [onPress] callback. *)
Record button : Type := {
  text : value;
  style : option string
}.

(** A computation of the module: it ends by returning (an async function
    returns, a promise is resolved), by throwing (a promise is rejected),
    or it stays pending for ever; before that it calls the platform and
    goes on with what the platform answers. *)
Inductive prog (A : Type) : Type :=
| Ret (a : A)
| Throw (e : value)
| Pending
| CanOpenURL (url : value) (k : settled -> prog A)
| OpenURL (url : value) (k : settled -> prog A)
| ShowActionSheetWithOptions (options : action_sheet) (callback : Z -> prog A)
| AlertAlert (title message : value) (buttons : list button)
             (onPress : nat -> prog A) (onDismiss : prog A).

Arguments Ret {A} a.
Arguments Throw {A} e.
Arguments Pending {A}.
Arguments CanOpenURL {A} url k.
Arguments OpenURL {A} url k.
Arguments ShowActionSheetWithOptions {A} options callback.
Arguments AlertAlert {A} title message buttons onPress onDismiss.

Fixpoint bind {A B : Type} (p : prog A) (f : A -> prog B) : prog B :=
  match p with
  | Ret a => f a
  | Throw e => Throw e
  | Pending => Pending
  | CanOpenURL url k => CanOpenURL url (fun r => bind (k r) f)
  | OpenURL url k => OpenURL url (fun r => bind (k r) f)
  | ShowActionSheetWithOptions o k => ShowActionSheetWithOptions o (fun i => bind (k i) f)
  | AlertAlert t m bs k d => AlertAlert t m bs (fun i => bind (k i) f) (bind d f)
  end.

(** [await promise]: the value the promise is resolved with, or its
    rejection thrown. *)
Definition await (r : settled) : prog value :=
  match r with
  | Resolved v => Ret v
  | Rejected e => Throw e
  end.

(** [new Promise(async (resolve) => body)], where [Ret a] in [body] stands
    for [resolve(a)]: what the async executor throws is lost, and the
    promise then never settles. *)
Fixpoint new_Promise_async {A : Type} (body : prog A) : prog A :=
  match body with
  | Ret a => Ret a
  | Throw _ => Pending
  | Pending => Pending
  | CanOpenURL url k => CanOpenURL url (fun r => new_Promise_async (k r))
  | OpenURL url k => OpenURL url (fun r => new_Promise_async (k r))
  | ShowActionSheetWithOptions o k =>
    ShowActionSheetWithOptions o (fun i => new_Promise_async (k i))
  | AlertAlert t m bs k d =>
    AlertAlert t m bs (fun i => new_Promise_async (k i)) (new_Promise_async d)
  end.

(** [Alert.alert(title, message, buttons, {onDismiss})], each button with
    its [onPress] callback. *)
Definition Alert_alert {A : Type} (title message : value)
           (buttons : list (button * prog A)) (onDismiss : prog A) : prog A :=
  AlertAlert title message (map fst buttons)
             (fun i => match nth_error buttons i with
                       | Some (_, onPress) => onPress
                       | None => Pending
                       end)
             onDismiss.

(** *** Running a computation on a platform *)

Inductive alert_response : Type :=
| Press (i : nat)
| Dismiss.

(** A platform: how each probe and each launch settles, and what the user
    does with a prompt ([None]: the prompt is never answered). *)
Record host : Type := {
  canOpenURL : value -> settled;
  openURL : value -> settled;
  actionSheet : action_sheet -> option Z;
  alert : value -> value -> list button -> option alert_response
}.

Inductive event : Type :=
| ECanOpenURL (url : value)
| EOpenURL (url : value)
| EActionSheet (options : action_sheet)
| EAlert (title message : value) (buttons : list button).

Inductive outcome (A : Type) : Type :=
| Fulfilled (a : A)
| Failed (e : value)
| Unsettled.

Arguments Fulfilled {A} a.
Arguments Failed {A} e.
Arguments Unsettled {A}.

(** The calls made, in order, and how the computation ends. *)
Fixpoint run {A : Type} (h : host) (p : prog A) : list event * outcome A :=
  match p with
  | Ret a => ([], Fulfilled a)
  | Throw e => ([], Failed e)
  | Pending => ([], Unsettled)
  | CanOpenURL url k =>
    let (t, o) := run h (k (canOpenURL h url)) in (ECanOpenURL url :: t, o)
  | OpenURL url k =>
    let (t, o) := run h (k (openURL h url)) in (EOpenURL url :: t, o)
  | ShowActionSheetWithOptions opts k =>
    match actionSheet h opts with
    | Some i => let (t, o) := run h (k i) in (EActionSheet opts :: t, o)
    | None => ([EActionSheet opts], Unsettled)
    end
  | AlertAlert title message bs k d =>
    match alert h title message bs with
    | Some (Press i) => let (t, o) := run h (k i) in (EAlert title message bs :: t, o)
    | Some Dismiss => let (t, o) := run h d in (EAlert title message bs :: t, o)
    | None => ([EAlert title message bs], Unsettled)
    end
  end.

Definition is_prompt (e : event) : bool :=
  match e with
  | EActionSheet _ | EAlert _ _ _ => true
  | _ => false
  end.

End RN.

Import RN.

Notation "x <- p ;; q" := (bind p (fun x => q))
  (at level 61, p at next level, right associativity).

(** ** index.js *)

Section Index.

(** [Platform.OS === 'ios'] *)
Variable isIOS : bool.

(** [new MapsException(message)] *)
Definition MapsException (message : string) : value :=
  VObject [("message", VStr message); ("name", VStr "MapsException")].

Definition apps : list string :=
  [ "apple-maps"; "google-maps"; "citymapper"; "uber"; "lyft";
    "navigon"; "transit"; "waze"; "yandex"; "moovit" ].

Definition prefixes : value :=
  VObject
    [ ("apple-maps", VStr (if isIOS then "http://maps.apple.com/" else "applemaps://"));
      ("google-maps", VStr (if isIOS then "comgooglemaps://" else "https://maps.google.com/"));
      ("citymapper", VStr "citymapper://");
      ("uber", VStr "uber://");
      ("lyft", VStr "lyft://");
      ("navigon", VStr "navigon://");
      ("transit", VStr "transit://");
      ("waze", VStr "waze://");
      ("yandex", VStr "yandexnavi://");
      ("moovit", VStr "moovit://") ].

Definition titles : value :=
  VObject
    [ ("apple-maps", VStr "Apple Maps");
      ("google-maps", VStr "Google Maps");
      ("citymapper", VStr "Citymapper");
      ("uber", VStr "Uber");
      ("lyft", VStr "Lyft");
      ("navigon", VStr "Navigon");
      ("transit", VStr "The Transit App");
      ("waze", VStr "Waze");
      ("yandex", VStr "Yandex.Navi");
      ("moovit", VStr "Moovit") ].

(** [for (let app in o)] *)
Definition for_in (o : value) : list string :=
  match o with
  | VObject own => keys own []
  | _ => []
  end.

(** [a || b] *)
Definition or (a b : value) : value := if truthy a then a else b.

(** [l[i]] for an array of strings *)
Definition index (l : list string) (i : Z) : value :=
  if i <? 0 then VUndefined
  else match nth_error l (Z.to_nat i) with
       | Some s => VStr s
       | None => VUndefined
       end.

Definition array_length (l : list value) : Z := Z.of_nat (List.length l).

Definition isAppInstalled (app : string) : prog value :=
  if negb (has app prefixes) then Ret (VBool false)
  else
    CanOpenURL (get prefixes app)
      (fun settled =>
         match settled with
         | Resolved result => Ret (VBool (negb (negb (truthy result))))
         | Rejected _ => Ret (VBool false)
         end).

(** The loop of [askAppChoice] over the keys still to visit. *)
Fixpoint probe_each (todo : list string) (availableApps : list string)
  : prog (list string) :=
  match todo with
  | [] => Ret availableApps
  | app :: todo' =>
    avail <- isAppInstalled app ;;
    probe_each todo' (if truthy avail then (availableApps ++ [app])%list else availableApps)
  end.

(** A parameter with a default value: the default stands in for
    [undefined]. *)
Definition default (v d : value) : value :=
  match v with
  | VUndefined => d
  | _ => v
  end.

Definition default_title : value := VStr "Open in Maps".
Definition default_message : value := VStr "What app would you like to use?".

(** The part of [askAppChoice] after the loop. *)
Definition choose (title message : value) (availableApps : list string)
  : prog value :=
  if (List.length availableApps <? 2)%nat
  then Ret (or (index availableApps 0) VNull)
  else if isIOS then
    let options := (map (fun app => get titles app) availableApps ++ [VStr "Cancel"])%list in
    ShowActionSheetWithOptions
      {| sheet_title := title;
         sheet_message := message;
         sheet_options := options;
         cancelButtonIndex := array_length options - 1 |}
      (fun buttonIndex =>
         if buttonIndex =? array_length options - 1 then Ret VNull
         else Ret (index availableApps buttonIndex))
  else
    let options :=
      (map (fun app => ({| text := get titles app; style := None |}, Ret (VStr app)))
           availableApps
       ++ [({| text := VStr "Cancel"; style := Some "cancel" |}, Ret VNull)])%list in
    Alert_alert title message options (Ret VNull).

Definition askAppChoice (title message : value) : prog value :=
  let title := default title default_title in
  let message := default message default_message in
  new_Promise_async
    (availableApps <- probe_each (for_in prefixes) [] ;;
     choose title message availableApps).

(** The five checks at the head of [showLocation]: the exception thrown,
    if any. *)
Definition validate (options : value) : option value :=
  if negb (truthy options) || negb (typeof options =? "object")%string then
    Some (MapsException "First parameter of `showLocation` should contain object with options.")
  else if negb (has "latitude" options) || negb (has "longitude" options) then
    Some (MapsException "First parameter of `showLocation` should contain object with at least keys `latitude` and `longitude`.")
  else if has "address" options && truthy (get options "address")
          && negb (typeof (get options "address") =? "string")%string then
    Some (MapsException "Option `address` should be of type `string`.")
  else if has "title" options && truthy (get options "title")
          && negb (typeof (get options "title") =? "string")%string then
    Some (MapsException "Option `title` should be of type `string`.")
  else if has "app" options && truthy (get options "app")
          && indexOf_lt_0 apps (get options "app") then
    Some (MapsException
            ("Option `app` should be undefined, null, or one of the following: "
             ++ quote ++ join (quote ++ ", " ++ quote) apps ++ quote ++ "."))
  else None.

(** [v && v.length ? v : null] *)
Definition nonempty_or_null (v : value) : value :=
  if truthy v && length_truthy v then v else VNull.

(** The [switch (app)] of [showLocation]: the value of [url] after it. *)
Definition format_url (app : value) (lat lng : number) (title address : value) : value :=
  let prefix k := ToString (get prefixes k) in
  let lat := Number_toString lat in
  let lng := Number_toString lng in
  if strict_eq_string app "apple-maps" then
    VStr (prefix "apple-maps" ++ "?ll=" ++ lat ++ "," ++ lng
          ++ "&q=" ++ encodeURIComponent (ToString (or title (VStr "Location")))
          ++ "&address=" ++ encodeURIComponent (ToString (or address (VStr EmptyString))))
  else if strict_eq_string app "google-maps" then
    VStr (prefix "google-maps"
          ++ (if isIOS
              then "?api=1&ll=" ++ lat ++ "," ++ lng ++ "&q="
                   ++ encodeURIComponent (ToString (or (or address title) (VStr "Location")))
              else "?q=" ++ lat ++ "," ++ lng))
  else if strict_eq_string app "citymapper" then
    let url := prefix "citymapper" ++ "directions?endcoord=" ++ lat ++ "," ++ lng in
    VStr (if truthy title
          then url ++ "&endname=" ++ encodeURIComponent (ToString title)
          else url)
  else if strict_eq_string app "uber" then
    let url := prefix "uber" ++ "?action=setPickup&pickup=my_location&dropoff[latitude]="
               ++ lat ++ "&dropoff[longitude]" ++ lng in
    VStr (if truthy title
          then url ++ "&dropoff[nickname]=" ++ encodeURIComponent (ToString title)
          else url)
  else if strict_eq_string app "lyft" then
    VStr (prefix "lyft" ++ "ridetype?id=lyft&destination[latitude]=" ++ lat
          ++ "&destination[longitude]=" ++ lng)
  else if strict_eq_string app "transit" then
    VStr (prefix "transit" ++ "directions?to=" ++ lat ++ "," ++ lng)
  else if strict_eq_string app "waze" then
    VStr (prefix "waze" ++ "?ll=" ++ lat ++ "," ++ lng ++ "&navigate=yes")
  else if strict_eq_string app "yandex" then
    VStr (prefix "yandex" ++ "build_route_on_map?lat_to=" ++ lat ++ "&lon_to=" ++ lng)
  else if strict_eq_string app "moovit" then
    let url := prefix "moovit" ++ "directions?dest_lat=" ++ lat ++ "&dest_lon" ++ lng in
    VStr (if truthy title
          then url ++ "&dest_name=" ++ encodeURIComponent (ToString title)
          else url)
  else VNull.

Definition showLocation (options : value) : prog value :=
  match validate options with
  | Some exception => Throw exception
  | None =>
    let lat := parseFloat (get options "latitude") in
    let lng := parseFloat (get options "longitude") in
    let address := nonempty_or_null (get options "address") in
    let title := nonempty_or_null (get options "title") in
    let app := nonempty_or_null (get options "app") in
    app <- (if negb (truthy app)
            then askAppChoice VUndefined VUndefined
            else Ret app) ;;
    let url := format_url app lat lng title address in
    if truthy url then OpenURL url await else Ret VUndefined
  end.

End Index.

(** ** Vocabulary of the statements *)

(** How the promise of [showLocation] ends when the launch settles as [r]. *)
Definition settle (r : settled) : outcome value :=
  match r with
  | Resolved v => Fulfilled v
  | Rejected e => Failed e
  end.

(** The platform says that something handles [url]. *)
Definition answers_yes (h : host) (url : value) : bool :=
  match canOpenURL h url with
  | Resolved result => truthy result
  | Rejected _ => false
  end.

(** The providers that probe as available, in the order of the registry. *)
Definition available (isIOS : bool) (h : host) : list string :=
  filter (fun app => answers_yes h (get (prefixes isIOS) app)) apps.

(** One probe per registered provider, in the order of the registry. *)
Definition probes (isIOS : bool) : list event :=
  map (fun app => ECanOpenURL (get (prefixes isIOS) app)) apps.

(** The object without its property [k]. *)
Definition without (k : string) (own : list (string * value)) : list (string * value) :=
  filter (fun p => negb (fst p =? k)%string) own.

(** An optional text field that is given: a string that is not empty. *)
Definition present (v : value) : option string :=
  match v with
  | VStr s => if (s =? EmptyString)%string then None else Some s
  | _ => None
  end.

(** The prompt of [askAppChoice] for the providers [avail]. *)
Definition prompt_options (avail : list string) : list value :=
  (map (fun app => get titles app) avail ++ [VStr "Cancel"])%list.

Definition sheet (title message : value) (avail : list string) : action_sheet :=
  {| sheet_title := title;
     sheet_message := message;
     sheet_options := prompt_options avail;
     cancelButtonIndex := Z.of_nat (List.length avail) |}.

Definition buttons (avail : list string) : list button :=
  (map (fun app => {| text := get titles app; style := None |}) avail
   ++ [{| text := VStr "Cancel"; style := Some "cancel" |}])%list.

Definition prompt (isIOS : bool) (title message : value) (avail : list string) : event :=
  if isIOS then EActionSheet (sheet title message avail)
  else EAlert title message (buttons avail).

(** The user picks option [k] of that prompt. *)
Definition picks (isIOS : bool) (h : host) (title message : value)
           (avail : list string) (k : nat) : Prop :=
  if isIOS then actionSheet h (sheet title message avail) = Some (Z.of_nat k)
  else alert h title message (buttons avail) = Some (Press k).

(** The user dismisses the dialog (there is no such gesture on the sheet). *)
Definition dismisses (isIOS : bool) (h : host) (title message : value)
           (avail : list string) : Prop :=
  isIOS = false /\ alert h title message (buttons avail) = Some Dismiss.

(** Number literals of the examples. *)
Definition lit_40_7 : number := round_decimal false 407 (-1).
Definition lit_minus_74 : number := round_decimal true 74 0.
Definition lit_1 : number := round_decimal false 1 0.
Definition lit_2 : number := round_decimal false 2 0.
Definition lit_0 : number := S754_zero false.

(** Platforms of the examples. *)
Definition platform (yes : value -> bool) (sheet_answer : option Z)
           (alert_answer : option alert_response) : host :=
  {| canOpenURL := fun url => Resolved (VBool (yes url));
     openURL := fun _ => Resolved VUndefined;
     actionSheet := fun _ => sheet_answer;
     alert := fun _ _ _ => alert_answer |}.

Definition everything_installed : host := platform (fun _ => true) (Some 2) (Some (Press 2)).
Definition nothing_installed : host := platform (fun _ => false) None None.
Definition only_waze : host :=
  platform (fun url => strict_eq_string url "waze://") None None.

(** Requests of the examples. *)
Definition waze_request : value :=
  VObject [("latitude", VNum lit_40_7); ("longitude", VNum lit_minus_74);
           ("app", VStr "waze")].

Definition navigon_request : value :=
  VObject [("latitude", VNum lit_1); ("longitude", VNum lit_2);
           ("app", VStr "navigon")].

Definition uber_request : value :=
  VObject [("latitude", VNum lit_1); ("longitude", VNum lit_2);
           ("title", VStr "Home"); ("app", VStr "uber")].

Definition falsy_title_fields : list (string * value) :=
  [("latitude", VNum lit_1); ("longitude", VNum lit_2);
   ("title", VNum lit_0); ("app", VStr "waze")].

Definition unparsable_request : value :=
  VObject [("latitude", VStr "north"); ("longitude", VUndefined);
           ("app", VStr "waze")].

Definition citymapper_request : value :=
  VObject [("latitude", VNum lit_1); ("longitude", VNum lit_2);
           ("title", VStr "Home"); ("app", VStr "citymapper")].

Definition google_maps_request : value :=
  VObject [("latitude", VNum lit_1); ("longitude", VNum lit_2);
           ("app", VStr "google-maps")].

(** ** Vocabulary of the further statements *)

Definition is_launch (e : event) : bool :=
  match e with
  | EOpenURL _ => true
  | _ => false
  end.

Definition is_probe (e : event) : bool :=
  match e with
  | ECanOpenURL _ => true
  | _ => false
  end.

(** An optional text field as validation accepts it: falsy, or a string. *)
Definition text_ok (v : value) : Prop :=
  truthy v = false \/ exists s, v = VStr s.

(** An [app] as validation accepts it: falsy, or a registered id. *)
Definition app_ok (v : value) : Prop :=
  truthy v = false \/ exists a, In a apps /\ v = VStr a.

(** The messages of the five checks, in the order of the code. *)
Definition options_message : string :=
  "First parameter of `showLocation` should contain object with options.".
Definition keys_message : string :=
  "First parameter of `showLocation` should contain object with at least keys `latitude` and `longitude`.".
Definition address_message : string :=
  "Option `address` should be of type `string`.".
Definition title_message : string :=
  "Option `title` should be of type `string`.".
Definition app_message : string :=
  ("Option `app` should be undefined, null, or one of the following: "
   ++ quote ++ join (quote ++ ", " ++ quote) apps ++ quote ++ ".")%string.

(** A value that [parseFloat] converts to text as this model does: numbers,
    strings, undefined, null and booleans, and the objects that do not
    redefine [toString], which convert as [Object.prototype] has it.  (An
    object with a [toString] of its own converts as that property decides,
    which the model does not follow.) *)
Definition converts (v : value) : Prop :=
  match v with
  | VObject own => assoc "toString" own = None
  | _ => True
  end.

(** A request whose two coordinates convert so. *)
Definition convertible (options : value) : Prop :=
  converts (get options "latitude") /\ converts (get options "longitude").

(** The prompt of [askAppChoice] is left without an answer. *)
Definition unanswered (isIOS : bool) (h : host) (title message : value)
           (avail : list string) : Prop :=
  if isIOS then actionSheet h (sheet title message avail) = None
  else alert h title message (buttons avail) = None.

(** What [askAppChoice] presents for the providers [avail]. *)
Definition presented (isIOS : bool) (title message : value) (avail : list string)
  : list event :=
  if (List.length avail <? 2)%nat then [] else [prompt isIOS title message avail].

(** More platforms and requests of the examples. *)
Definition nobody_answers : host := platform (fun _ => true) None None.
Definition user_cancels : host := platform (fun _ => true) (Some 10) (Some Dismiss).
Definition user_picks_navigon : host := platform (fun _ => true) (Some 5) (Some (Press 5)).
Definition launch_fails : host :=
  {| canOpenURL := fun _ => Resolved (VBool true);
     openURL := fun _ => Rejected (VStr "no handler");
     actionSheet := fun _ => Some 7;
     alert := fun _ _ _ => Some (Press 7) |}.

Definition plain_request : value :=
  VObject [("latitude", VNum lit_1); ("longitude", VNum lit_2)].

Definition null_app_fields : list (string * value) :=
  [("latitude", VNum lit_1); ("longitude", VNum lit_2); ("app", VNull)].

Definition moovit_request : value :=
  VObject [("latitude", VNum lit_1); ("longitude", VNum lit_2);
           ("title", VStr "Home"); ("app", VStr "moovit")].

Definition apple_maps_request : value :=
  VObject [("latitude", VNum lit_1); ("longitude", VNum lit_2);
           ("app", VStr "apple-maps")].

Definition google_maps_ios_request : value :=
  VObject [("latitude", VNum lit_1); ("longitude", VNum lit_2);
           ("title", VStr "Home"); ("address", VStr "1 Main St");
           ("app", VStr "google-maps")].

(** ** The runtime, on examples *)

(** 40.7 is 0x1.4599999999999Ap+5. *)
Example lit_40_7_bits : lit_40_7 = S754_finite false 5728015776061850 (-47).
Proof. reflexivity. Qed.

Example parseFloat_examples :
  parseFloat (VStr "40.7") = lit_40_7
  /\ parseFloat (VNum lit_40_7) = lit_40_7
  /\ parseFloat (VStr "  -74px") = lit_minus_74
  /\ parseFloat (VStr ".5e1") = round_decimal false 5 0
  /\ parseFloat (VStr "north") = NaN
  /\ parseFloat VUndefined = NaN
  /\ parseFloat (VObject []) = NaN
  /\ parseFloat (VStr "-Infinity") = S754_infinity true.
Proof. vm_compute. repeat split. Qed.

Example Number_toString_examples :
  map (fun me => Number_toString (round_decimal false (fst me) (snd me)))
      [(407, -1); (1, 21); (1, 20); (1, -7); (1, -6); (5, -324);
       (123456789012345678901, 0); (30000000000000004, -17);
       (17976931348623157, 292)]
  = ["40.7"; "1e+21"; "100000000000000000000"; "1e-7"; "0.000001"; "5e-324";
     "123456789012345680000"; "0.30000000000000004"; "1.7976931348623157e+308"].
Proof. vm_compute. reflexivity. Qed.

Example encodeURIComponent_example :
  encodeURIComponent "Home sweet/home?&=#'()*!~._-"
  = "Home%20sweet%2Fhome%3F%26%3D%23'()*!~._-".
Proof. reflexivity. Qed.

(** ** Running computations *)

Section Run.

Context {A B : Type} (h : host).

Lemma run_bind (p : prog A) (f : A -> prog B) :
  run h (bind p f) =
  match run h p with
  | (t, Fulfilled a) => let (t', o) := run h (f a) in ((t ++ t')%list, o)
  | (t, Failed e) => (t, Failed e)
  | (t, Unsettled) => (t, Unsettled)
  end.
Proof.
  induction p as [a | e | | url k IH | url k IH | o k IH | t m bs k IHk d IHd]; simpl.
  - destruct (run h (f a)); reflexivity.
  - reflexivity.
  - reflexivity.
  - rewrite IH. destruct (run h (k (canOpenURL h url))) as [t [a | e |]];
      try reflexivity. destruct (run h (f a)); reflexivity.
  - rewrite IH. destruct (run h (k (openURL h url))) as [t [a | e |]];
      try reflexivity. destruct (run h (f a)); reflexivity.
  - destruct (actionSheet h o) as [i |]; [| reflexivity].
    rewrite IH. destruct (run h (k i)) as [t [a | e |]];
      try reflexivity. destruct (run h (f a)); reflexivity.
  - destruct (alert h t m bs) as [[i |] |]; [| | reflexivity].
    + rewrite IHk. destruct (run h (k i)) as [t' [a | e |]];
        try reflexivity. destruct (run h (f a)); reflexivity.
    + rewrite IHd. destruct (run h d) as [t' [a | e |]];
        try reflexivity. destruct (run h (f a)); reflexivity.
Qed.

Lemma run_new_Promise_async (p : prog A) :
  run h (new_Promise_async p) =
  match run h p with
  | (t, Failed _) => (t, Unsettled)
  | r => r
  end.
Proof.
  induction p as [a | e | | url k IH | url k IH | o k IH | t m bs k IHk d IHd]; simpl;
    try reflexivity.
  - rewrite IH. destruct (run h (k (canOpenURL h url))) as [t [a | e |]]; reflexivity.
  - rewrite IH. destruct (run h (k (openURL h url))) as [t [a | e |]]; reflexivity.
  - destruct (actionSheet h o) as [i |]; [| reflexivity].
    rewrite IH. destruct (run h (k i)) as [t [a | e |]]; reflexivity.
  - destruct (alert h t m bs) as [[i |] |]; [| | reflexivity].
    + rewrite IHk. destruct (run h (k i)) as [t' [a | e |]]; reflexivity.
    + rewrite IHd. destruct (run h d) as [t' [a | e |]]; reflexivity.
Qed.

End Run.

(** ** The registry *)

Lemma for_in_prefixes (isIOS : bool) : for_in (prefixes isIOS) = apps.
Proof. reflexivity. Qed.

Lemma registered_cases (P : string -> Prop) :
  P "apple-maps" -> P "google-maps" -> P "citymapper" -> P "uber" -> P "lyft" ->
  P "navigon" -> P "transit" -> P "waze" -> P "yandex" -> P "moovit" ->
  forall app, In app apps -> P app.
Proof.
  intros ? ? ? ? ? ? ? ? ? ? app H. unfold apps in H. simpl in H.
  repeat (destruct H as [<- | H]; [assumption |]). contradiction.
Qed.

(** [~ In id apps] for a literal [id]. *)
Ltac unregistered id :=
  let H := fresh in
  intros H;
  refine (registered_cases (fun a => a <> id) _ _ _ _ _ _ _ _ _ _ _ H eq_refl);
  discriminate.

Lemma indexOf_lt_0_spec (l : list string) (v : value) :
  indexOf_lt_0 l v = true <-> forall a, In a l -> v <> VStr a.
Proof.
  unfold indexOf_lt_0. rewrite negb_true_iff. split.
  - intros H a Ha ->. 
    assert (existsb (strict_eq_string (VStr a)) l = true) as E.
    { apply existsb_exists. exists a. split; [assumption |]. simpl. apply String.eqb_refl. }
    congruence.
  - intros H. destruct (existsb (strict_eq_string v) l) eqn:E; [| reflexivity].
    apply existsb_exists in E. destruct E as [a [Ha E]].
    destruct v; simpl in E; try discriminate.
    apply String.eqb_eq in E. subst. exfalso. exact (H a Ha eq_refl).
Qed.

(** ** showLocation: validation *)

(** Every failure of [validate] is a [MapsException]. *)
Lemma validate_MapsException (options e : value) :
  validate options = Some e -> exists message, e = MapsException message.
Proof.
  unfold validate. intros H.
  repeat match type of H with
         | (if ?c then _ else _) = _ => destruct c
         end;
    first [discriminate | injection H as <-; eexists; reflexivity].
Qed.

(** C1: an input object whose [app] is given, truthy (for a string: not
    empty) and not one of the ten registered ids makes [showLocation] throw
    a [MapsException] before it calls the platform at all: the computation
    is the throw itself, so on every platform no probe, prompt or launch
    happens. *)
Theorem showLocation_rejects_unregistered_app (isIOS : bool) (options : value) :
  has "app" options = true ->
  truthy (get options "app") = true ->
  (forall a, In a apps -> get options "app" <> VStr a) ->
  exists message,
    showLocation isIOS options = Throw (MapsException message)
    /\ forall h, run h (showLocation isIOS options) = ([], Failed (MapsException message)).
Proof.
  intros Hin Htruthy Hnot.
  assert (exists e, validate options = Some e) as [e He].
  { apply indexOf_lt_0_spec in Hnot. unfold validate.
    rewrite Hin, Htruthy, Hnot. simpl.
    repeat match goal with
           | |- exists _, (if ?c then _ else _) = _ => destruct c
           end; eexists; reflexivity. }
  destruct (validate_MapsException _ _ He) as [message ->].
  exists message. unfold showLocation. rewrite He. split; [reflexivity |].
  intros h. reflexivity.
Qed.

Lemma showLocation_rejects_unregistered_app_witness :
  has "app" (VObject [("app", VStr "bogus-app"); ("latitude", VNum lit_1);
                      ("longitude", VNum lit_2)]) = true
  /\ exists message,
       showLocation true (VObject [("app", VStr "bogus-app"); ("latitude", VNum lit_1);
                                   ("longitude", VNum lit_2)])
       = Throw (MapsException message)
       /\ forall h,
           run h (showLocation true (VObject [("app", VStr "bogus-app");
                                              ("latitude", VNum lit_1);
                                              ("longitude", VNum lit_2)]))
           = ([], Failed (MapsException message)).
Proof.
  split; [reflexivity |].
  apply (showLocation_rejects_unregistered_app true).
  - reflexivity.
  - reflexivity.
  - apply indexOf_lt_0_spec. reflexivity.
Defined.

(** ** showLocation: formatting and launch *)

(** C5: for [{latitude: 40.7, longitude: -74, app: 'waze'}] the computation
    is one launch, of exactly [waze://?ll=40.7,-74&navigate=yes], whose
    promise is returned; on every platform that launch is the only call. *)
Theorem showLocation_waze (isIOS : bool) :
  showLocation isIOS waze_request
  = OpenURL (VStr "waze://?ll=40.7,-74&navigate=yes") await
  /\ forall h,
      run h (showLocation isIOS waze_request)
      = ([EOpenURL (VStr "waze://?ll=40.7,-74&navigate=yes")],
         settle (openURL h (VStr "waze://?ll=40.7,-74&navigate=yes"))).
Proof.
  assert (showLocation isIOS waze_request
          = OpenURL (VStr "waze://?ll=40.7,-74&navigate=yes") await) as E.
  { destruct isIOS; vm_compute; reflexivity. }
  split; [exact E |].
  intros h. rewrite E. simpl.
  destruct (openURL h _); reflexivity.
Qed.

Lemma get_absent (options : value) (k : string) :
  has k options = false -> get options k = VUndefined.
Proof.
  unfold has, get, inherited, in_Object_prototype.
  destruct options as [| | b | n | s | own | f |]; try reflexivity.
  - destruct (assoc k own); [discriminate |].
    intros H. apply orb_false_iff in H as [-> ->]. reflexivity.
  - intros H. apply orb_false_iff in H as [-> ->]. reflexivity.
Qed.

Lemma typeof_string (v : value) :
  (typeof v =? "string")%string = true -> exists s, v = VStr s.
Proof. destruct v; simpl; try discriminate. eexists; reflexivity. Qed.

(** After validation a truthy [title], [address] or [app] is a string. *)
Lemma validated_text (options : value) (k : string) :
  validate options = None ->
  k = "title" \/ k = "address" \/ k = "app" ->
  truthy (get options k) = true ->
  exists s, get options k = VStr s /\ (s =? EmptyString)%string = false.
Proof.
  intros Hv Hk Ht.
  assert (has k options = true) as Hin.
  { destruct (has k options) eqn:E; [reflexivity |].
    rewrite (get_absent _ _ E) in Ht. discriminate. }
  assert (exists s, get options k = VStr s) as [s Hs].
  { unfold validate in Hv.
    destruct (negb (truthy options) || negb (typeof options =? "object")%string);
      [discriminate |].
    destruct (negb (has "latitude" options) || negb (has "longitude" options));
      [discriminate |].
    destruct Hk as [-> | [-> | ->]]; rewrite Hin, Ht in Hv; simpl in Hv.
    - destruct (has "address" options && truthy (get options "address")
                && negb (typeof (get options "address") =? "string")%string);
        [discriminate |].
      destruct (typeof (get options "title") =? "string")%string eqn:E;
        [apply typeof_string; exact E | discriminate].
    - destruct (typeof (get options "address") =? "string")%string eqn:E;
        [apply typeof_string; exact E | discriminate].
    - destruct (has "address" options && truthy (get options "address")
                && negb (typeof (get options "address") =? "string")%string);
        [discriminate |].
      destruct (has "title" options && truthy (get options "title")
                && negb (typeof (get options "title") =? "string")%string);
        [discriminate |].
      destruct (indexOf_lt_0 apps (get options "app")) eqn:E; [discriminate |].
      unfold indexOf_lt_0 in E. apply negb_false_iff, existsb_exists in E.
      destruct E as [a [_ E]]. destruct (get options "app"); try discriminate.
      eexists; reflexivity. }
  exists s. split; [exact Hs |].
  rewrite Hs in Ht. simpl in Ht. apply negb_true_iff in Ht. exact Ht.
Qed.

(** What [title] and [address] are normalized to after validation. *)
Lemma validated_nonempty_or_null (options : value) (k : string) :
  validate options = None ->
  k = "title" \/ k = "address" \/ k = "app" ->
  nonempty_or_null (get options k)
  = match present (get options k) with
    | Some s => VStr s
    | None => VNull
    end.
Proof.
  intros Hv Hk. unfold nonempty_or_null.
  destruct (truthy (get options k)) eqn:Ht.
  - destruct (validated_text _ _ Hv Hk Ht) as [s [-> Hs]].
    simpl. rewrite Hs. reflexivity.
  - simpl. destruct (get options k) as [| | b | n | s | own | f |]; try reflexivity;
      try discriminate.
    simpl in Ht. apply negb_false_iff in Ht. simpl. rewrite Ht. reflexivity.
Qed.

(** C7: a valid request for [navigon], with coordinates that [parseFloat]
    can convert, is a computation that returns [undefined] at once: no URL
    is formatted, and on every platform nothing is probed, prompted or
    launched. *)
Theorem showLocation_navigon (isIOS : bool) (options : value) :
  validate options = None ->
  convertible options ->
  get options "app" = VStr "navigon" ->
  format_url isIOS (VStr "navigon")
             (parseFloat (get options "latitude")) (parseFloat (get options "longitude"))
             (nonempty_or_null (get options "title"))
             (nonempty_or_null (get options "address")) = VNull
  /\ showLocation isIOS options = Ret VUndefined
  /\ forall h, run h (showLocation isIOS options) = ([], Fulfilled VUndefined).
Proof.
  intros Hv _ Happ.
  assert (showLocation isIOS options = Ret VUndefined) as E.
  { unfold showLocation. rewrite Hv, Happ. reflexivity. }
  split; [reflexivity |]. split; [exact E |].
  intros h. rewrite E. reflexivity.
Qed.

(** Two more requests: citymapper with a title, and google-maps off iOS. *)
Example showLocation_citymapper :
  showLocation true citymapper_request
  = OpenURL (VStr "citymapper://directions?endcoord=1,2&endname=Home") await.
Proof. vm_compute. reflexivity. Qed.

Example showLocation_google_maps :
  showLocation false google_maps_request
  = OpenURL (VStr "https://maps.google.com/?q=1,2") await.
Proof. vm_compute. reflexivity. Qed.

Lemma showLocation_navigon_witness :
  validate navigon_request = None
  /\ convertible navigon_request
  /\ showLocation false navigon_request = Ret VUndefined.
Proof.
  split; [reflexivity |]. split; [split; exact I |].
  apply (showLocation_navigon false navigon_request);
    [reflexivity | split; exact I | reflexivity].
Defined.

(** C6: for a valid request with [app: 'uber'], with coordinates that
    [parseFloat] can convert, the computation is the launch of the uber
    prefix, then
    [?action=setPickup&pickup=my_location&dropoff[latitude]=], the latitude,
    [&dropoff[longitude]] and, with no [=] in between, the longitude;
    [&dropoff[nickname]=] and the encoded title follow exactly when a title
    is given. *)
Theorem showLocation_uber (isIOS : bool) (options : value) :
  validate options = None ->
  convertible options ->
  get options "app" = VStr "uber" ->
  let lat := Number_toString (parseFloat (get options "latitude")) in
  let lng := Number_toString (parseFloat (get options "longitude")) in
  let url := ("uber://" ++ "?action=setPickup&pickup=my_location&dropoff[latitude]="
              ++ lat ++ "&dropoff[longitude]" ++ lng)%string in
  showLocation isIOS options
  = OpenURL (VStr match present (get options "title") with
                  | Some title =>
                    (url ++ "&dropoff[nickname]=" ++ encodeURIComponent title)%string
                  | None => url
                  end) await.
Proof.
  intros Hv _ Happ lat lng url.
  unfold showLocation. rewrite Hv, Happ.
  rewrite (validated_nonempty_or_null options "title" Hv) by auto.
  destruct (present (get options "title")) as [title |] eqn:E.
  - destruct (get options "title"); try discriminate.
    simpl in E. destruct (s =? EmptyString)%string eqn:Es; [discriminate |].
    injection E as <-. 
    cbn -[Number_toString parseFloat encodeURIComponent append].
    rewrite Es. reflexivity.
  - reflexivity.
Qed.

Lemma showLocation_uber_witness :
  validate uber_request = None
  /\ convertible uber_request
  /\ showLocation true uber_request
     = OpenURL (VStr "uber://?action=setPickup&pickup=my_location&dropoff[latitude]=1&dropoff[longitude]2&dropoff[nickname]=Home") await.
Proof.
  split; [reflexivity |]. split; [split; exact I |].
  exact (showLocation_uber true uber_request eq_refl (conj I I) eq_refl).
Defined.

(** ** isAppInstalled *)

(** The promise of [isAppInstalled] is always resolved, with a boolean. *)
Lemma isAppInstalled_boolean (isIOS : bool) (app : string) (h : host) :
  exists b, snd (run h (isAppInstalled isIOS app)) = Fulfilled (VBool b).
Proof.
  unfold isAppInstalled. destruct (has app (prefixes isIOS)); simpl.
  - destruct (canOpenURL h _); eexists; reflexivity.
  - eexists; reflexivity.
Qed.

(** A key that [in] does not find in [prefixes] is answered [false]
    without a probe, and so is a probe that is rejected. *)
Lemma isAppInstalled_false (isIOS : bool) (app : string) (h : host) :
  (has app (prefixes isIOS) = false ->
   run h (isAppInstalled isIOS app) = ([], Fulfilled (VBool false)))
  /\ (forall reason,
         canOpenURL h (get (prefixes isIOS) app) = Rejected reason ->
         snd (run h (isAppInstalled isIOS app)) = Fulfilled (VBool false)).
Proof.
  unfold isAppInstalled. split.
  - intros ->. reflexivity.
  - intros reason H. destruct (has app (prefixes isIOS)); [| reflexivity].
    cbn -[get prefixes]. rewrite H. reflexivity.
Qed.

Lemma isAppInstalled_registered (isIOS : bool) (h : host) (app : string) :
  In app apps ->
  run h (isAppInstalled isIOS app)
  = ([ECanOpenURL (get (prefixes isIOS) app)],
     Fulfilled (VBool (answers_yes h (get (prefixes isIOS) app)))).
Proof.
  revert app. apply registered_cases;
    unfold isAppInstalled, answers_yes; simpl;
    match goal with |- context [canOpenURL h ?u] => destruct (canOpenURL h u) end;
    try reflexivity;
    match goal with |- context [truthy ?v] => destruct (truthy v) end; reflexivity.
Qed.

(** C2, at the input ['constructor']: it is not a registered id, yet
    [in] finds it in [prefixes] (on [Object.prototype]), so the guard for
    unregistered ids is passed, the platform is probed with the inherited
    function in place of a prefix, and the promise takes the answer of the
    probe: [true] on a platform whose probe resolves [true]. *)
Theorem isAppInstalled_inherited_key (isIOS : bool) :
  ~ In "constructor" apps
  /\ has "constructor" (prefixes isIOS) = true
  /\ run everything_installed (isAppInstalled isIOS "constructor")
     = ([ECanOpenURL (VFunction "constructor")], Fulfilled (VBool true)).
Proof.
  split.
  - unregistered "constructor".
  - split; reflexivity.
Qed.

(** ** The registry, queried *)

Lemma assoc_In {A : Type} (k : string) (l : list (string * A)) (a : A) :
  assoc k l = Some a -> In k (map fst l).
Proof.
  induction l as [| [k' a'] l IH]; simpl; [discriminate |].
  destruct (k =? k')%string eqn:E.
  - apply String.eqb_eq in E. subst. auto.
  - auto.
Qed.

Lemma inherited_not_string (r : bool) (k s : string) : inherited r k <> VStr s.
Proof.
  unfold inherited. destruct (is_function_member k); [discriminate |].
  destruct (k =? "__proto__")%string; [destruct r |]; discriminate.
Qed.

(** C8, as the code has it: the prefix and the title of each of the ten
    registered ids are strings that are not empty; a lookup with any other
    id does not fail, it answers a value that is not a string; and for an
    id that [in] does not find in [prefixes] the lookup answers [undefined]
    and [isAppInstalled], on every platform, resolves [false] without a
    probe. *)
Theorem registry_lookup (isIOS : bool) (id : string) :
  (In id apps ->
   exists prefix title,
     get (prefixes isIOS) id = VStr prefix /\ prefix <> EmptyString
     /\ get titles id = VStr title /\ title <> EmptyString)
  /\ (~ In id apps ->
      (forall s, get (prefixes isIOS) id <> VStr s)
      /\ (forall s, get titles id <> VStr s)
      /\ (has id (prefixes isIOS) = false ->
          get (prefixes isIOS) id = VUndefined
          /\ forall h,
              run h (isAppInstalled isIOS id) = ([], Fulfilled (VBool false)))).
Proof.
  split.
  - revert id. apply registered_cases; destruct isIOS;
      do 2 eexists; (split; [reflexivity |]); (split; [discriminate |]);
      (split; [reflexivity | discriminate]).
  - intros Hnot. split; [| split].
    + intros s. unfold get, prefixes.
      match goal with |- context [assoc id ?l] => destruct (assoc id l) eqn:E end.
      * exfalso. apply Hnot. apply assoc_In in E. destruct isIOS; exact E.
      * apply inherited_not_string.
    + intros s. unfold get, titles.
      match goal with |- context [assoc id ?l] => destruct (assoc id l) eqn:E end.
      * exfalso. apply Hnot. apply assoc_In in E. exact E.
      * apply inherited_not_string.
    + intros Hhas. split; [apply get_absent; exact Hhas |].
      intros h. unfold isAppInstalled. rewrite Hhas. reflexivity.
Qed.

Lemma registry_lookup_witness :
  (exists prefix title,
      get (prefixes false) "waze" = VStr prefix /\ prefix <> EmptyString
      /\ get titles "waze" = VStr title /\ title <> EmptyString)
  /\ (forall s, get (prefixes false) "bogus-app" <> VStr s)
  /\ has "bogus-app" (prefixes false) = false
  /\ run everything_installed (isAppInstalled false "bogus-app")
     = ([], Fulfilled (VBool false)).
Proof.
  split; [| split; [| split; [reflexivity |]]].
  - apply (proj1 (registry_lookup false "waze")). simpl. tauto.
  - apply (proj2 (registry_lookup false "bogus-app")). unregistered "bogus-app".
  - apply (proj2 (registry_lookup false "bogus-app")).
    + unregistered "bogus-app".
    + reflexivity.
Defined.

(** C8, as stated, at the id ['bogus-app']: it is not registered, and the
    lookups answer [undefined] where the claim wants a failure;
    [isAppInstalled], which makes the lookup, resolves [false]. *)
Lemma unregistered_lookup_does_not_fail :
  ~ In "bogus-app" apps
  /\ get (prefixes true) "bogus-app" = VUndefined
  /\ get titles "bogus-app" = VUndefined
  /\ isAppInstalled true "bogus-app" = Ret (VBool false)
  /\ forall h e, snd (run h (isAppInstalled true "bogus-app")) <> Failed e.
Proof.
  split.
  - unregistered "bogus-app".
  - repeat split; try reflexivity. intros h e. discriminate.
Qed.

(** ** askAppChoice *)

Lemma available_registered (isIOS : bool) (h : host) (app : string) :
  In app (available isIOS h) -> In app apps.
Proof. unfold available. intros H. apply filter_In in H. tauto. Qed.

Lemma registered_truthy (app : string) : In app apps -> truthy (VStr app) = true.
Proof. revert app. apply registered_cases; reflexivity. Qed.

(** The loop probes every key still to visit, in order, and appends the
    available ones to the providers found so far. *)
Lemma run_probe_each (isIOS : bool) (h : host) (todo acc : list string) :
  (forall a, In a todo -> In a apps) ->
  run h (probe_each isIOS todo acc)
  = (map (fun app => ECanOpenURL (get (prefixes isIOS) app)) todo,
     Fulfilled (acc ++ filter (fun app => answers_yes h (get (prefixes isIOS) app)) todo)%list).
Proof.
  revert acc. induction todo as [| app todo IH]; intros acc Hreg.
  - simpl. rewrite app_nil_r. reflexivity.
  - cbn [probe_each]. rewrite run_bind, isAppInstalled_registered by (apply Hreg; left; reflexivity).
    rewrite IH by (intros a Ha; apply Hreg; right; exact Ha).
    cbn [map filter truthy List.app].
    destruct (answers_yes h (get (prefixes isIOS) app)).
    + rewrite <- app_assoc. reflexivity.
    + reflexivity.
Qed.

(** [askAppChoice] probes the ten providers and then goes on as [choose]
    says for the available ones. *)
Lemma run_askAppChoice (isIOS : bool) (h : host) (title message : value) :
  run h (askAppChoice isIOS title message)
  = match run h (choose isIOS (default title default_title)
                        (default message default_message) (available isIOS h)) with
    | (t, Failed _) => ((probes isIOS ++ t)%list, Unsettled)
    | (t, o) => ((probes isIOS ++ t)%list, o)
    end.
Proof.
  unfold askAppChoice. rewrite run_new_Promise_async, run_bind, for_in_prefixes.
  rewrite run_probe_each by auto.
  cbn [List.app]. fold (available isIOS h). fold (probes isIOS).
  destruct (run h (choose isIOS (default title default_title)
                           (default message default_message) (available isIOS h)))
    as [t [a | e |]]; reflexivity.
Qed.

(** C3: when no provider probes as available, [askAppChoice] resolves
    [null], and when exactly one does, it resolves that provider; in both
    cases the calls to the platform are the ten probes and nothing else, so
    no prompt is presented. *)
Theorem askAppChoice_without_prompt (isIOS : bool) (h : host) (title message : value) :
  (available isIOS h = [] ->
   run h (askAppChoice isIOS title message) = (probes isIOS, Fulfilled VNull))
  /\ (forall app,
         available isIOS h = [app] ->
         run h (askAppChoice isIOS title message) = (probes isIOS, Fulfilled (VStr app)))
  /\ existsb is_prompt (probes isIOS) = false.
Proof.
  split; [| split].
  - intros E. rewrite run_askAppChoice, E.
    change (choose isIOS (default title default_title)
                   (default message default_message) []) with (@Ret value VNull).
    cbn [run]. rewrite app_nil_r. reflexivity.
  - intros app E. rewrite run_askAppChoice, E.
    assert (truthy (VStr app) = true) as Ht.
    { apply registered_truthy, (available_registered isIOS h). rewrite E. left. reflexivity. }
    unfold choose, or, index. cbn [List.length Nat.ltb Nat.leb Z.ltb Z.compare Z.to_nat nth_error].
    rewrite Ht. cbn [run]. rewrite app_nil_r. reflexivity.
  - destruct isIOS; reflexivity.
Qed.

Lemma askAppChoice_without_prompt_witness :
  (available true nothing_installed = []
   /\ run nothing_installed (askAppChoice true VUndefined VUndefined)
      = (probes true, Fulfilled VNull))
  /\ (available false only_waze = ["waze"]
      /\ run only_waze (askAppChoice false VUndefined VUndefined)
         = (probes false, Fulfilled (VStr "waze"))).
Proof.
  split; (split; [reflexivity |]).
  - apply (proj1 (askAppChoice_without_prompt true nothing_installed _ _)). reflexivity.
  - apply (proj1 (proj2 (askAppChoice_without_prompt false only_waze _ _))). reflexivity.
Defined.

Lemma index_nth (l : list string) (k : nat) (a : string) :
  nth_error l k = Some a -> index l (Z.of_nat k) = VStr a.
Proof.
  intros H. unfold index.
  destruct (Z.of_nat k <? 0) eqn:E; [apply Z.ltb_lt in E; lia |].
  rewrite Nat2Z.id, H. reflexivity.
Qed.

(** With two providers or more, [choose] presents the prompt. *)
Lemma choose_prompt (isIOS : bool) (h : host) (title message : value)
      (avail : list string) :
  (2 <= List.length avail)%nat ->
  fst (run h (choose isIOS title message avail)) = [prompt isIOS title message avail]
  /\ (forall k a,
         nth_error avail k = Some a ->
         picks isIOS h title message avail k ->
         snd (run h (choose isIOS title message avail)) = Fulfilled (VStr a))
  /\ (picks isIOS h title message avail (List.length avail) ->
      snd (run h (choose isIOS title message avail)) = Fulfilled VNull)
  /\ (dismisses isIOS h title message avail ->
      snd (run h (choose isIOS title message avail)) = Fulfilled VNull).
Proof.
  intros Hlen. unfold choose, prompt, picks, dismisses.
  destruct (List.length avail <? 2)%nat eqn:E; [apply Nat.ltb_lt in E; lia |].
  clear E. destruct isIOS.
  - assert (array_length (map (fun a => get titles a) avail ++ [VStr "Cancel"])%list - 1
            = Z.of_nat (List.length avail)) as Ecancel.
    { unfold array_length. rewrite length_app, length_map. simpl. lia. }
    rewrite Ecancel. fold (prompt_options avail). fold (sheet title message avail).
    cbn [run]. split; [| split; [| split]].
    + destruct (actionSheet h (sheet title message avail)) as [i |]; [| reflexivity].
      destruct (i =? Z.of_nat (List.length avail)); reflexivity.
    + intros k a Hk ->.
      assert (k < List.length avail)%nat as Hlt by (apply nth_error_Some; congruence).
      destruct (Z.of_nat k =? Z.of_nat (List.length avail)) eqn:E;
        [apply Z.eqb_eq in E; lia |].
      cbn [run snd]. rewrite (index_nth _ _ _ Hk). reflexivity.
    + intros ->. rewrite Z.eqb_refl. reflexivity.
    + intros [H _]. discriminate.
  - unfold Alert_alert. rewrite map_app, map_map. cbn [map fst].
    fold (buttons avail). cbn [run]. split; [| split; [| split]].
    + destruct (alert h title message (buttons avail)) as [[i |] |]; [| | reflexivity].
      * match goal with
        | |- context [nth_error ?l i] => destruct (nth_error l i) as [[b p] |] eqn:E
        end; [| reflexivity].
        apply nth_error_In, in_app_or in E. destruct E as [E | [E | []]].
        -- apply in_map_iff in E. destruct E as [a [E _]].
           injection E as _ <-. reflexivity.
        -- injection E as _ <-. reflexivity.
      * reflexivity.
    + intros k a Hk ->.
      assert (k < List.length avail)%nat as Hlt by (apply nth_error_Some; congruence).
      rewrite nth_error_app1 by (rewrite length_map; exact Hlt).
      rewrite nth_error_map, Hk. reflexivity.
    + intros ->.
      rewrite nth_error_app2 by (rewrite length_map; lia).
      rewrite length_map, Nat.sub_diag. reflexivity.
    + intros [_ ->]. reflexivity.
Qed.

(** C4: when two providers or more probe as available, [askAppChoice]
    probes the ten providers and then presents one prompt, the action sheet
    on iOS and the alert elsewhere, whose options are the titles of the
    available providers in registry order followed by Cancel; picking the
    option at position [k] resolves the provider at position [k] of the
    available ones, picking Cancel resolves [null], and so does dismissing
    the alert. *)
Theorem askAppChoice_prompt (isIOS : bool) (h : host) (title message : value) :
  let avail := available isIOS h in
  let title' := default title default_title in
  let message' := default message default_message in
  (2 <= List.length avail)%nat ->
  fst (run h (askAppChoice isIOS title message))
  = (probes isIOS ++ [prompt isIOS title' message' avail])%list
  /\ sheet_options (sheet title' message' avail)
     = (map (fun app => get titles app) avail ++ [VStr "Cancel"])%list
  /\ map text (buttons avail)
     = (map (fun app => get titles app) avail ++ [VStr "Cancel"])%list
  /\ (forall k app,
         nth_error avail k = Some app ->
         picks isIOS h title' message' avail k ->
         snd (run h (askAppChoice isIOS title message)) = Fulfilled (VStr app))
  /\ (picks isIOS h title' message' avail (List.length avail) ->
      snd (run h (askAppChoice isIOS title message)) = Fulfilled VNull)
  /\ (dismisses isIOS h title' message' avail ->
      snd (run h (askAppChoice isIOS title message)) = Fulfilled VNull).
Proof.
  intros avail title' message' Hlen.
  destruct (choose_prompt isIOS h title' message' _ Hlen)
    as [Ht [Hpick [Hcancel Hdismiss]]].
  rewrite run_askAppChoice. fold avail title' message'.
  destruct (run h (choose isIOS title' message' avail)) as [t o] eqn:E.
  cbn [fst snd] in *. subst t.
  split; [destruct o; reflexivity |].
  split; [reflexivity |].
  split; [unfold buttons; rewrite map_app, map_map; reflexivity |].
  split; [| split].
  - intros k app Hk Hp. rewrite (Hpick k app Hk Hp). reflexivity.
  - intros Hp. rewrite (Hcancel Hp). reflexivity.
  - intros Hd. rewrite (Hdismiss Hd). reflexivity.
Qed.

Lemma askAppChoice_prompt_witness :
  (2 <= List.length (available true everything_installed))%nat
  /\ picks true everything_installed default_title default_message
           (available true everything_installed) 2
  /\ snd (run everything_installed (askAppChoice true VUndefined VUndefined))
     = Fulfilled (VStr "citymapper").
Proof.
  assert (2 <= List.length (available true everything_installed))%nat as Hlen.
  { vm_compute. repeat constructor. }
  split; [exact Hlen |]. split; [reflexivity |].
  destruct (askAppChoice_prompt true everything_installed VUndefined VUndefined Hlen)
    as [_ [_ [_ [Hpick _]]]].
  apply (Hpick 2%nat "citymapper"); reflexivity.
Defined.

(** ** showLocation: optional fields and coordinates *)

Lemma assoc_without {A : Type} (k k' : string) (own : list (string * A)) :
  assoc k' (filter (fun p => negb (fst p =? k)%string) own)
  = if (k' =? k)%string then None else assoc k' own.
Proof.
  induction own as [| [k0 a] own IH]; simpl.
  - destruct (k' =? k)%string; reflexivity.
  - destruct (k0 =? k)%string eqn:E0; simpl.
    + apply String.eqb_eq in E0. subst k0. rewrite IH.
      destruct (k' =? k)%string; reflexivity.
    + destruct (k' =? k0)%string eqn:E1.
      * apply String.eqb_eq in E1. subst k0. rewrite E0. reflexivity.
      * exact IH.
Qed.

Lemma has_without (k k' : string) (own : list (string * value)) :
  (k' =? k)%string = false ->
  has k' (VObject (without k own)) = has k' (VObject own).
Proof. intros E. unfold has, without. rewrite assoc_without, E. reflexivity. Qed.

Lemma get_without (k k' : string) (own : list (string * value)) :
  (k' =? k)%string = false ->
  get (VObject (without k own)) k' = get (VObject own) k'.
Proof. intros E. unfold get, without. rewrite assoc_without, E. reflexivity. Qed.

Lemma falsy_nonempty_or_null (v : value) :
  truthy v = false -> nonempty_or_null v = VNull.
Proof. intros H. unfold nonempty_or_null. rewrite H. reflexivity. Qed.

(** C9: a [title] or [address] that is given with a falsy value (0, false,
    null, ...: the values of the claim are the falsy ones that are not
    strings) does not trip the type check of the field; validation answers
    as it does for the object without the field, the field is normalized to
    [null], and [showLocation] is the very computation it is for the object
    without the field. *)
Theorem falsy_field_as_absent (isIOS : bool) (own : list (string * value))
        (k : string) (v : value) :
  k = "title" \/ k = "address" ->
  assoc k own = Some v ->
  truthy v = false ->
  has k (VObject own) && truthy (get (VObject own) k)
  && negb (typeof (get (VObject own) k) =? "string")%string = false
  /\ validate (VObject own) = validate (VObject (without k own))
  /\ nonempty_or_null (get (VObject own) k) = VNull
  /\ nonempty_or_null (get (VObject (without k own)) k) = VNull
  /\ showLocation isIOS (VObject own) = showLocation isIOS (VObject (without k own)).
Proof.
  intros Hk Hown Hfalsy.
  assert (get (VObject own) k = v) as Hget by (unfold get; rewrite Hown; reflexivity).
  assert (has k (VObject own) = true) as Hhas by (unfold has; rewrite Hown; reflexivity).
  assert (has k (VObject (without k own)) = false) as Hhas'.
  { unfold has, without. rewrite assoc_without, String.eqb_refl.
    destruct Hk as [-> | ->]; reflexivity. }
  assert (get (VObject (without k own)) k = VUndefined) as Hget'
      by (apply get_absent; exact Hhas').
  assert (validate (VObject own) = validate (VObject (without k own))) as Hvalidate.
  { unfold validate. destruct Hk as [-> | ->];
      rewrite Hhas, Hhas', Hget, Hget', Hfalsy;
      rewrite ?has_without, ?get_without by reflexivity; reflexivity. }
  split; [rewrite Hget, Hfalsy, andb_false_r; reflexivity |].
  split; [exact Hvalidate |].
  split; [rewrite Hget; apply falsy_nonempty_or_null; exact Hfalsy |].
  split; [rewrite Hget'; reflexivity |].
  unfold showLocation. rewrite Hvalidate.
  destruct Hk as [-> | ->];
    rewrite Hget, Hget', (falsy_nonempty_or_null v Hfalsy);
    rewrite ?get_without by reflexivity; reflexivity.
Qed.

Lemma falsy_field_as_absent_witness :
  assoc "title" falsy_title_fields = Some (VNum lit_0)
  /\ truthy (VNum lit_0) = false
  /\ validate (VObject falsy_title_fields) = None
  /\ showLocation true (VObject falsy_title_fields)
     = showLocation true (VObject (without "title" falsy_title_fields)).
Proof.
  split; [reflexivity |]. split; [reflexivity |]. split; [reflexivity |].
  apply (falsy_field_as_absent true falsy_title_fields "title" (VNum lit_0));
    [left; reflexivity | reflexivity | reflexivity].
Defined.

Lemma append_assoc (a b c : string) : ((a ++ b) ++ c = a ++ b ++ c)%string.
Proof. induction a as [| x a IH]; simpl; [reflexivity | rewrite IH; reflexivity]. Qed.

Lemma append_nil_r (a : string) : (a ++ EmptyString = a)%string.
Proof. induction a as [| x a IH]; simpl; [reflexivity | rewrite IH; reflexivity]. Qed.

(** The URL of every provider with a formatting rule is fixed text around
    the two coordinates, the latitude first. *)
Lemma format_url_frame (isIOS : bool) (title address : value) (app : string) :
  In app apps ->
  app <> "navigon" ->
  exists pre mid post,
    pre <> EmptyString
    /\ forall x y,
      format_url isIOS (VStr app) x y title address
      = VStr (pre ++ Number_toString x ++ mid ++ Number_toString y ++ post).
Proof.
  intros Hin. revert app Hin title address.
  apply (registered_cases
           (fun app => forall title address, app <> "navigon" ->
              exists pre mid post,
                pre <> EmptyString
                /\ forall x y,
                  format_url isIOS (VStr app) x y title address
                  = VStr (pre ++ Number_toString x ++ mid ++ Number_toString y ++ post)));
    intros title address Hnav; try congruence; clear Hnav.
  - exists (ToString (get (prefixes isIOS) "apple-maps") ++ "?ll=")%string, ",",
      ("&q=" ++ encodeURIComponent (ToString (or title (VStr "Location")))
       ++ "&address=" ++ encodeURIComponent (ToString (or address (VStr EmptyString))))%string.
    split; [destruct isIOS; discriminate |].
    intros x y. destruct isIOS; reflexivity.
  - destruct isIOS.
    + exists "comgooglemaps://?api=1&ll=", ",",
        ("&q=" ++ encodeURIComponent (ToString (or (or address title) (VStr "Location"))))%string.
      split; [discriminate |]. intros x y. reflexivity.
    + exists "https://maps.google.com/?q=", ",", EmptyString.
      split; [discriminate |]. intros x y. rewrite append_nil_r. reflexivity.
  - exists "citymapper://directions?endcoord=", ",",
      (if truthy title then "&endname=" ++ encodeURIComponent (ToString title)
       else EmptyString)%string.
    split; [discriminate |]. intros x y.
    unfold format_url. cbn -[Number_toString encodeURIComponent append ToString].
    destruct (truthy title).
    + cbn -[Number_toString encodeURIComponent ToString]. rewrite append_assoc.
      cbn -[Number_toString encodeURIComponent ToString]. rewrite append_assoc. reflexivity.
    + rewrite append_nil_r. reflexivity.
  - exists "uber://?action=setPickup&pickup=my_location&dropoff[latitude]=",
      "&dropoff[longitude]",
      (if truthy title then "&dropoff[nickname]=" ++ encodeURIComponent (ToString title)
       else EmptyString)%string.
    split; [discriminate |]. intros x y.
    unfold format_url. cbn -[Number_toString encodeURIComponent append ToString].
    destruct (truthy title).
    + cbn -[Number_toString encodeURIComponent ToString]. rewrite append_assoc.
      cbn -[Number_toString encodeURIComponent ToString]. rewrite append_assoc. reflexivity.
    + rewrite append_nil_r. reflexivity.
  - exists "lyft://ridetype?id=lyft&destination[latitude]=", "&destination[longitude]=",
      EmptyString.
    split; [discriminate |]. intros x y. rewrite append_nil_r. reflexivity.
  - exists "transit://directions?to=", ",", EmptyString.
    split; [discriminate |]. intros x y. rewrite append_nil_r. reflexivity.
  - exists "waze://?ll=", ",", "&navigate=yes".
    split; [discriminate |]. intros x y. reflexivity.
  - exists "yandexnavi://build_route_on_map?lat_to=", "&lon_to=", EmptyString.
    split; [discriminate |]. intros x y. rewrite append_nil_r. reflexivity.
  - exists "moovit://directions?dest_lat=", "&dest_lon",
      (if truthy title then "&dest_name=" ++ encodeURIComponent (ToString title)
       else EmptyString)%string.
    split; [discriminate |]. intros x y.
    unfold format_url. cbn -[Number_toString encodeURIComponent append ToString].
    destruct (truthy title).
    + cbn -[Number_toString encodeURIComponent ToString]. rewrite append_assoc.
      cbn -[Number_toString encodeURIComponent ToString]. rewrite append_assoc. reflexivity.
    + rewrite append_nil_r. reflexivity.
Qed.

(** Validation asks for the two coordinates to be there and never looks at
    what they hold: giving [latitude] or [longitude] another value, one
    that parses or one that does not, leaves its answer as it is. *)
Lemma validate_ignores_coordinates (own : list (string * value)) (k : string)
      (v v' : value) :
  k = "latitude" \/ k = "longitude" ->
  validate (VObject ((k, v) :: own)) = validate (VObject ((k, v') :: own)).
Proof. intros [-> | ->]; reflexivity. Qed.

(** A valid request whose provider, given or chosen, has a URL: the
    computation ends with the launch of that URL. *)
Lemma run_showLocation_launch (isIOS : bool) (h : host) (options : value)
      (app : string) (t : list event) (url : string) :
  validate options = None ->
  In app apps ->
  (get options "app" = VStr app /\ t = []
   \/ truthy (get options "app") = false
      /\ run h (askAppChoice isIOS VUndefined VUndefined)
         = (t, Fulfilled (VStr app))) ->
  format_url isIOS (VStr app)
             (parseFloat (get options "latitude")) (parseFloat (get options "longitude"))
             (nonempty_or_null (get options "title"))
             (nonempty_or_null (get options "address")) = VStr url ->
  url <> EmptyString ->
  run h (showLocation isIOS options)
  = ((t ++ [EOpenURL (VStr url)])%list, settle (openURL h (VStr url))).
Proof.
  intros Hv Hin Happ Hurl Hne.
  assert (truthy (VStr url) = true) as Hturl.
  { simpl. apply negb_true_iff, String.eqb_neq. exact Hne. }
  unfold showLocation. rewrite Hv.
  destruct Happ as [[Happ ->] | [Hfalsy Hrun]].
  - assert (nonempty_or_null (VStr app) = VStr app) as Hnorm.
    { unfold nonempty_or_null.
      change (length_truthy (VStr app)) with (truthy (VStr app)).
      rewrite (registered_truthy app Hin). reflexivity. }
    rewrite Happ, Hnorm, (registered_truthy app Hin). cbn [negb bind].
    rewrite Hurl, Hturl. cbn [run].
    destruct (openURL h (VStr url)); reflexivity.
  - rewrite (falsy_nonempty_or_null _ Hfalsy). cbn [truthy negb].
    rewrite run_bind, Hrun, Hurl, Hturl. cbn [run].
    destruct (openURL h (VStr url)); reflexivity.
Qed.

(** C10: a coordinate whose value does not parse as a number is no reason
    to fail.  For a valid request whose coordinates [parseFloat] can
    convert (numbers, strings, undefined, null, booleans, objects that keep
    the [toString] of [Object.prototype]) and whose provider, given in
    [app] or chosen in the prompt, has a formatting rule, the URL is fixed
    text around the two coordinates; [showLocation] ends with the launch of
    that URL, with the text [NaN] in the place of each coordinate that does
    not parse. *)
Theorem showLocation_unparsable_coordinate (isIOS : bool) (h : host) (options : value)
        (app : string) (t : list event) :
  validate options = None ->
  convertible options ->
  In app apps ->
  app <> "navigon" ->
  (get options "app" = VStr app /\ t = []
   \/ truthy (get options "app") = false
      /\ run h (askAppChoice isIOS VUndefined VUndefined)
         = (t, Fulfilled (VStr app))) ->
  let lat := parseFloat (get options "latitude") in
  let lng := parseFloat (get options "longitude") in
  exists pre mid post,
    (forall x y,
        format_url isIOS (VStr app) x y
                   (nonempty_or_null (get options "title"))
                   (nonempty_or_null (get options "address"))
        = VStr (pre ++ Number_toString x ++ mid ++ Number_toString y ++ post))
    /\ (lat = NaN ->
        run h (showLocation isIOS options)
        = ((t ++ [EOpenURL (VStr (pre ++ "NaN" ++ mid ++ Number_toString lng ++ post))])%list,
           settle (openURL h (VStr (pre ++ "NaN" ++ mid ++ Number_toString lng ++ post)))))
    /\ (lng = NaN ->
        run h (showLocation isIOS options)
        = ((t ++ [EOpenURL (VStr (pre ++ Number_toString lat ++ mid ++ "NaN" ++ post))])%list,
           settle (openURL h (VStr (pre ++ Number_toString lat ++ mid ++ "NaN" ++ post))))).
Proof.
  intros Hv _ Hin Hnav Happ lat lng.
  destruct (format_url_frame isIOS (nonempty_or_null (get options "title"))
                             (nonempty_or_null (get options "address")) app Hin Hnav)
    as [pre [mid [post [Hpre Hframe]]]].
  exists pre, mid, post. split; [exact Hframe |].
  assert (forall rest, (pre ++ rest)%string <> EmptyString) as Hne.
  { intros rest. destruct pre; [congruence | discriminate]. }
  split; intros E.
  - change "NaN" with (Number_toString NaN). rewrite <- E.
    apply (run_showLocation_launch isIOS h options app t); auto.
  - change "NaN" with (Number_toString NaN). rewrite <- E.
    apply (run_showLocation_launch isIOS h options app t); auto.
Qed.

Lemma showLocation_unparsable_coordinate_witness :
  validate unparsable_request = None
  /\ convertible unparsable_request
  /\ parseFloat (get unparsable_request "latitude") = NaN
  /\ parseFloat (get unparsable_request "longitude") = NaN
  /\ run nothing_installed (showLocation false unparsable_request)
     = ([EOpenURL (VStr "waze://?ll=NaN,NaN&navigate=yes")], Fulfilled VUndefined).
Proof.
  split; [reflexivity |]. split; [split; exact I |].
  split; [reflexivity |]. split; [reflexivity |].
  destruct (showLocation_unparsable_coordinate
              false nothing_installed unparsable_request "waze" [])
    as [pre [mid [post [Hframe [Hlat _]]]]].
  - reflexivity.
  - split; exact I.
  - simpl. tauto.
  - discriminate.
  - left. split; reflexivity.
  - rewrite (Hlat eq_refl).
    assert ((pre ++ "NaN" ++ mid
             ++ Number_toString (parseFloat (get unparsable_request "longitude")) ++ post)%string
            = "waze://?ll=NaN,NaN&navigate=yes") as E.
    { specialize (Hframe NaN NaN). injection Hframe as Hframe. symmetry. exact Hframe. }
    rewrite E. reflexivity.
Defined.

(** * Further properties *)

(** ** isAppInstalled, for every key and platform *)

Lemma registered_has (isIOS : bool) (app : string) :
  In app apps -> has app (prefixes isIOS) = true.
Proof. revert app. apply registered_cases; reflexivity. Qed.

(** X1: for a registered id, and for a key that [in] does not find in
    [prefixes], the promise of [isAppInstalled] is always resolved, with a
    boolean: a registered id costs exactly one probe, of its prefix, and
    the answer is [true] exactly when that probe resolved with a truthy
    value, a rejected probe and a falsy answer both giving [false]; a key
    that is not found is answered [false] without a probe. *)
Theorem isAppInstalled_answer (isIOS : bool) (app : string) (h : host) :
  In app apps \/ has app (prefixes isIOS) = false ->
  exists b,
    run h (isAppInstalled isIOS app)
    = ((if has app (prefixes isIOS) then [ECanOpenURL (get (prefixes isIOS) app)] else []),
       Fulfilled (VBool b))
    /\ (b = true <->
        In app apps
        /\ exists result,
            canOpenURL h (get (prefixes isIOS) app) = Resolved result
            /\ truthy result = true).
Proof.
  intros Hkey. unfold isAppInstalled.
  destruct (has app (prefixes isIOS)) eqn:Hin; cbn -[get prefixes].
  - destruct Hkey as [Hreg | Hkey]; [| discriminate].
    destruct (canOpenURL h (get (prefixes isIOS) app)) as [result | reason] eqn:E.
    + exists (truthy result). rewrite negb_involutive. split; [reflexivity |]. split.
      * intros Ht. split; [exact Hreg |]. exists result. auto.
      * intros [_ [result' [[= <-] Ht]]]. exact Ht.
    + exists false. split; [reflexivity |]. split; [discriminate |].
      intros [_ [result [E' _]]]. discriminate.
  - exists false. split; [reflexivity |]. split; [discriminate |].
    intros [Hreg _]. rewrite (registered_has isIOS app Hreg) in Hin. discriminate.
Qed.

Lemma isAppInstalled_answer_witness :
  In "waze" apps
  /\ run only_waze (isAppInstalled false "waze")
     = ([ECanOpenURL (VStr "waze://")], Fulfilled (VBool true))
  /\ run only_waze (isAppInstalled false "uber")
     = ([ECanOpenURL (VStr "uber://")], Fulfilled (VBool false))
  /\ exists b,
      run only_waze (isAppInstalled false "bogus-app")
      = ((if has "bogus-app" (prefixes false)
          then [ECanOpenURL (get (prefixes false) "bogus-app")] else []),
         Fulfilled (VBool b))
      /\ (b = true <->
          In "bogus-app" apps
          /\ exists result,
              canOpenURL only_waze (get (prefixes false) "bogus-app") = Resolved result
              /\ truthy result = true).
Proof.
  split; [simpl; tauto |]. split; [reflexivity |]. split; [reflexivity |].
  apply (isAppInstalled_answer false "bogus-app" only_waze). right. reflexivity.
Defined.

(** ** showLocation: what validation accepts and what it throws *)

Lemma indexOf_lt_0_registered (a : string) :
  In a apps -> indexOf_lt_0 apps (VStr a) = false.
Proof.
  intros H. unfold indexOf_lt_0. apply negb_false_iff, existsb_exists.
  exists a. split; [exact H | simpl; apply String.eqb_refl].
Qed.

Lemma text_check (options : value) (k : string) :
  has k options && truthy (get options k)
  && negb (typeof (get options k) =? "string")%string = false
  <-> text_ok (get options k).
Proof.
  unfold text_ok. split.
  - intros H. destruct (truthy (get options k)) eqn:Ht; [| left; reflexivity].
    right. destruct (has k options) eqn:Hin.
    + simpl in H. apply negb_false_iff in H. apply typeof_string. exact H.
    + rewrite (get_absent _ _ Hin) in Ht. discriminate.
  - intros [H | [s H]]; rewrite H.
    + rewrite andb_false_r. reflexivity.
    + simpl. rewrite andb_false_r. reflexivity.
Qed.

Lemma app_check (options : value) :
  has "app" options && truthy (get options "app")
  && indexOf_lt_0 apps (get options "app") = false
  <-> app_ok (get options "app").
Proof.
  unfold app_ok. split.
  - intros H. destruct (truthy (get options "app")) eqn:Ht; [| left; reflexivity].
    right. destruct (has "app" options) eqn:Hin.
    + simpl in H. unfold indexOf_lt_0 in H.
      apply negb_false_iff, existsb_exists in H. destruct H as [a [Ha E]].
      exists a. split; [exact Ha |].
      destruct (get options "app"); try discriminate.
      simpl in E. apply String.eqb_eq in E. congruence.
    + rewrite (get_absent _ _ Hin) in Ht. discriminate.
  - intros [H | [a [Ha H]]]; rewrite H.
    + rewrite andb_false_r. reflexivity.
    + rewrite (indexOf_lt_0_registered a Ha), andb_false_r. reflexivity.
Qed.

(** X2: validation accepts exactly the objects that have both coordinate
    keys, whose [address] and [title] are falsy or strings, and whose [app]
    is falsy or a registered id; what the coordinates hold plays no part. *)
Theorem validate_accepts_iff (options : value) :
  validate options = None
  <-> truthy options = true
      /\ typeof options = "object"
      /\ has "latitude" options = true
      /\ has "longitude" options = true
      /\ text_ok (get options "address")
      /\ text_ok (get options "title")
      /\ app_ok (get options "app").
Proof.
  rewrite <- (text_check options "address"), <- (text_check options "title"),
    <- (app_check options).
  unfold validate. split.
  - intros H.
    destruct (truthy options); [| discriminate].
    destruct (typeof options =? "object")%string eqn:Ety; [| discriminate].
    apply String.eqb_eq in Ety.
    destruct (has "latitude" options); [| discriminate].
    destruct (has "longitude" options); [| discriminate].
    cbn [negb orb] in H.
    destruct (has "address" options && truthy (get options "address")
              && negb (typeof (get options "address") =? "string")%string);
      [discriminate |].
    destruct (has "title" options && truthy (get options "title")
              && negb (typeof (get options "title") =? "string")%string);
      [discriminate |].
    destruct (has "app" options && truthy (get options "app")
              && indexOf_lt_0 apps (get options "app"));
      [discriminate |].
    repeat split; assumption.
  - intros [-> [Ety [-> [-> [-> [-> ->]]]]]].
    rewrite Ety. reflexivity.
Qed.

Lemma validate_accepts_iff_witness :
  validate plain_request = None
  /\ app_ok (get uber_request "app").
Proof.
  split.
  - apply (proj2 (validate_accepts_iff plain_request)).
    repeat split; try reflexivity; left; reflexivity.
  - apply (proj1 (validate_accepts_iff uber_request)). reflexivity.
Defined.

(** X3: the five checks run in a fixed order and the first that fails
    decides the exception, whatever the later fields hold: a value that is
    not an object; then a missing coordinate key; then [address]; then
    [title]; then [app].  Each time [showLocation] is the throw itself. *)
Theorem showLocation_first_failure (isIOS : bool) (options : value) :
  (truthy options = false \/ typeof options <> "object" ->
   showLocation isIOS options = Throw (MapsException options_message))
  /\ (truthy options = true -> typeof options = "object" ->
      has "latitude" options = false \/ has "longitude" options = false ->
      showLocation isIOS options = Throw (MapsException keys_message))
  /\ (has "latitude" options = true -> has "longitude" options = true ->
      ~ text_ok (get options "address") ->
      showLocation isIOS options = Throw (MapsException address_message))
  /\ (has "latitude" options = true -> has "longitude" options = true ->
      text_ok (get options "address") ->
      ~ text_ok (get options "title") ->
      showLocation isIOS options = Throw (MapsException title_message))
  /\ (has "latitude" options = true -> has "longitude" options = true ->
      text_ok (get options "address") ->
      text_ok (get options "title") ->
      ~ app_ok (get options "app") ->
      showLocation isIOS options = Throw (MapsException app_message)).
Proof.
  assert (forall k, has k options = true ->
                    truthy options = true /\ (typeof options =? "object")%string = true)
    as Hobject.
  { intros k H. destruct options; try discriminate; split; reflexivity. }
  assert (forall b : bool, b <> false -> b = true) as Htrue
      by (intros []; congruence).
  unfold showLocation, validate. repeat split.
  - intros [-> | H]; [reflexivity |].
    apply String.eqb_neq in H. rewrite H, orb_true_r. reflexivity.
  - intros -> Ety [-> | ->]; rewrite Ety; cbn [String.eqb negb orb];
      rewrite ?orb_true_r; reflexivity.
  - intros Hlat Hlng Hbad. destruct (Hobject _ Hlat) as [-> ->]. rewrite Hlat, Hlng.
    rewrite <- text_check in Hbad. rewrite (Htrue _ Hbad). reflexivity.
  - intros Hlat Hlng Haddress Hbad. destruct (Hobject _ Hlat) as [-> ->].
    rewrite Hlat, Hlng. rewrite <- text_check in Haddress, Hbad.
    rewrite Haddress, (Htrue _ Hbad). reflexivity.
  - intros Hlat Hlng Haddress Htitle Hbad. destruct (Hobject _ Hlat) as [-> ->].
    rewrite Hlat, Hlng. rewrite <- text_check in Haddress, Htitle.
    rewrite <- app_check in Hbad.
    rewrite Haddress, Htitle, (Htrue _ Hbad). reflexivity.
Qed.

Lemma showLocation_first_failure_witness :
  showLocation true VNull = Throw (MapsException options_message)
  /\ showLocation true (VObject [("latitude", VNum lit_1); ("title", VNum lit_1)])
     = Throw (MapsException keys_message)
  /\ showLocation true (VObject [("latitude", VNum lit_1); ("longitude", VNum lit_2);
                                 ("app", VStr "bogus-app"); ("title", VNum lit_1);
                                 ("address", VBool true)])
     = Throw (MapsException address_message).
Proof.
  split; [| split].
  - apply (proj1 (showLocation_first_failure true VNull)). left. reflexivity.
  - apply (proj1 (proj2 (showLocation_first_failure true _))); [reflexivity .. |].
    right. reflexivity.
  - apply (proj1 (proj2 (proj2 (showLocation_first_failure true _)))); [reflexivity .. |].
    intros [H | [s H]]; discriminate.
Defined.

(** X4: an [app] that is given with a falsy value (null, undefined, the
    empty string, 0, false) counts as no [app] at all: validation answers
    as for the object without the field, and [showLocation] is the very
    computation it is for that object, the one that asks [askAppChoice]. *)
Theorem falsy_app_as_absent (isIOS : bool) (own : list (string * value)) (v : value) :
  assoc "app" own = Some v ->
  truthy v = false ->
  validate (VObject own) = validate (VObject (without "app" own))
  /\ showLocation isIOS (VObject own) = showLocation isIOS (VObject (without "app" own))
  /\ (validate (VObject own) = None ->
      convertible (VObject own) ->
      forall h, exists t o,
          run h (showLocation isIOS (VObject own)) = ((probes isIOS ++ t)%list, o)).
Proof.
  intros Hown Hfalsy.
  assert (get (VObject own) "app" = v) as Hget by (unfold get; rewrite Hown; reflexivity).
  assert (has "app" (VObject own) = true) as Hhas by (unfold has; rewrite Hown; reflexivity).
  assert (has "app" (VObject (without "app" own)) = false) as Hhas'.
  { unfold has, without. rewrite assoc_without. reflexivity. }
  assert (get (VObject (without "app" own)) "app" = VUndefined) as Hget'
      by (apply get_absent; exact Hhas').
  assert (validate (VObject own) = validate (VObject (without "app" own))) as Hvalidate.
  { unfold validate. rewrite Hhas, Hhas', Hget, Hget', Hfalsy.
    rewrite ?has_without, ?get_without by reflexivity. reflexivity. }
  split; [exact Hvalidate |]. split.
  - unfold showLocation. rewrite Hvalidate, Hget, Hget', (falsy_nonempty_or_null v Hfalsy).
    rewrite ?get_without by reflexivity. reflexivity.
  - intros Hv _ h. unfold showLocation.
    rewrite Hv, Hget, (falsy_nonempty_or_null v Hfalsy). cbn [truthy negb].
    rewrite run_bind, run_askAppChoice.
    destruct (run h (choose isIOS (default VUndefined default_title)
                            (default VUndefined default_message) (available isIOS h)))
      as [t [a | e |]].
    + match goal with
      | |- context [run h ?p] => destruct (run h p) as [t' o']
      end.
      exists (t ++ t')%list, o'. rewrite app_assoc. reflexivity.
    + exists t, Unsettled. reflexivity.
    + exists t, Unsettled. reflexivity.
Qed.

Lemma falsy_app_as_absent_witness :
  assoc "app" null_app_fields = Some VNull
  /\ showLocation false (VObject null_app_fields)
     = showLocation false (VObject (without "app" null_app_fields)).
Proof.
  split; [reflexivity |].
  apply (falsy_app_as_absent false null_app_fields VNull); reflexivity.
Defined.

(** ** askAppChoice, on every platform *)

Lemma index_cases (l : list string) (i : Z) :
  index l i = VUndefined \/ exists a, In a l /\ index l i = VStr a.
Proof.
  unfold index. destruct (i <? 0); [left; reflexivity |].
  destruct (nth_error l (Z.to_nat i)) as [a |] eqn:E; [| left; reflexivity].
  right. exists a. split; [apply (nth_error_In _ _ E) | reflexivity].
Qed.

(** What [choose] does, in full: the prompt it presents, that it does not
    throw, and what it can resolve. *)
Lemma run_choose (isIOS : bool) (h : host) (title message : value)
      (avail : list string) :
  exists o,
    run h (choose isIOS title message avail) = (presented isIOS title message avail, o)
    /\ (forall e, o <> Failed e)
    /\ (forall v, o = Fulfilled v ->
                  v = VNull \/ (isIOS = true /\ v = VUndefined)
                  \/ exists a, In a avail /\ v = VStr a)
    /\ ((2 <= List.length avail)%nat -> unanswered isIOS h title message avail ->
        o = Unsettled).
Proof.
  unfold choose, presented, unanswered, prompt.
  destruct (List.length avail <? 2)%nat eqn:Elen.
  - apply Nat.ltb_lt in Elen.
    exists (Fulfilled (or (index avail 0) VNull)). split; [reflexivity |].
    split; [discriminate |]. split; [| lia].
    intros v [= <-]. unfold or.
    destruct (index_cases avail 0) as [-> | [a [Ha ->]]]; [left; reflexivity |].
    destruct (truthy (VStr a)); [| left; reflexivity].
    right. right. exists a. split; [exact Ha | reflexivity].
  - destruct isIOS.
    + assert (array_length (map (fun a => get titles a) avail ++ [VStr "Cancel"])%list - 1
              = Z.of_nat (List.length avail)) as Ecancel.
      { unfold array_length. rewrite length_app, length_map. simpl. lia. }
      rewrite Ecancel. fold (prompt_options avail). fold (sheet title message avail).
      cbn [run].
      destruct (actionSheet h (sheet title message avail)) as [i |].
      * destruct (i =? Z.of_nat (List.length avail)).
        -- exists (Fulfilled VNull). split; [reflexivity |].
           split; [discriminate |]. split; [| discriminate].
           intros v [= <-]. left. reflexivity.
        -- exists (Fulfilled (index avail i)). split; [reflexivity |].
           split; [discriminate |]. split; [| discriminate].
           intros v [= <-].
           destruct (index_cases avail i) as [-> | [a [Ha ->]]].
           ++ right. left. split; reflexivity.
           ++ right. right. exists a. split; [exact Ha | reflexivity].
      * exists Unsettled. split; [reflexivity |].
        split; [discriminate |]. split; [discriminate | reflexivity].
    + unfold Alert_alert. rewrite map_app, map_map. cbn [map fst].
      fold (buttons avail). cbn [run].
      destruct (alert h title message (buttons avail)) as [[i |] |].
      * match goal with
        | |- context [nth_error ?l i] => destruct (nth_error l i) as [[b p] |] eqn:E
        end.
        -- apply nth_error_In, in_app_or in E. destruct E as [E | [E | []]].
           ++ apply in_map_iff in E. destruct E as [a [E Ha]].
              injection E as _ <-. exists (Fulfilled (VStr a)).
              split; [reflexivity |]. split; [discriminate |]. split; [| discriminate].
              intros v [= <-]. right. right. exists a. split; [exact Ha | reflexivity].
           ++ injection E as _ <-. exists (Fulfilled VNull).
              split; [reflexivity |]. split; [discriminate |]. split; [| discriminate].
              intros v [= <-]. left. reflexivity.
        -- exists Unsettled. split; [reflexivity |].
           split; [discriminate |]. split; [discriminate | reflexivity].
      * exists (Fulfilled VNull). split; [reflexivity |].
        split; [discriminate |]. split; [| discriminate].
        intros v [= <-]. left. reflexivity.
      * exists Unsettled. split; [reflexivity |].
        split; [discriminate |]. split; [discriminate | reflexivity].
Qed.

(** [askAppChoice] in full, from [run_askAppChoice] and [run_choose]. *)
Lemma run_askAppChoice_full (isIOS : bool) (h : host) (title message : value) :
  exists o,
    run h (askAppChoice isIOS title message)
    = ((probes isIOS
        ++ presented isIOS (default title default_title)
                     (default message default_message) (available isIOS h))%list, o)
    /\ (forall e, o <> Failed e)
    /\ (forall v, o = Fulfilled v ->
                  v = VNull \/ (isIOS = true /\ v = VUndefined)
                  \/ exists a, In a (available isIOS h) /\ v = VStr a)
    /\ ((2 <= List.length (available isIOS h))%nat ->
        unanswered isIOS h (default title default_title)
                   (default message default_message) (available isIOS h) ->
        o = Unsettled).
Proof.
  destruct (run_choose isIOS h (default title default_title)
                       (default message default_message) (available isIOS h))
    as [o [E [Hfail [Hvalue Hquiet]]]].
  exists o. rewrite run_askAppChoice, E.
  split; [destruct o; [reflexivity | exfalso; eapply Hfail; reflexivity | reflexivity] |].
  split; [exact Hfail |]. split; [exact Hvalue | exact Hquiet].
Qed.

(** X5: on every platform [askAppChoice] first probes all ten providers,
    in registry order and without stopping at the first that is available;
    it then presents a prompt exactly when two or more are available, and
    nothing else; and its promise is never rejected. *)
Theorem askAppChoice_calls (isIOS : bool) (h : host) (title message : value) :
  fst (run h (askAppChoice isIOS title message))
  = (probes isIOS
     ++ (if (List.length (available isIOS h) <? 2)%nat then []
         else [prompt isIOS (default title default_title)
                      (default message default_message) (available isIOS h)]))%list
  /\ List.length (probes isIOS) = 10%nat
  /\ forallb is_probe (probes isIOS) = true
  /\ forall e, snd (run h (askAppChoice isIOS title message)) <> Failed e.
Proof.
  destruct (run_askAppChoice_full isIOS h title message) as [o [E [Hfail _]]].
  rewrite E. split; [reflexivity |]. split; [reflexivity |].
  split; [destruct isIOS; reflexivity | exact Hfail].
Qed.

(** X6: what [askAppChoice] resolves is [null], or a provider that probed
    as available, or, on iOS only, [undefined] (a button index that names
    no option); a provider that did not probe as available is never
    resolved, and every resolved provider is a registered id. *)
Theorem askAppChoice_resolves_available (isIOS : bool) (h : host)
        (title message v : value) :
  snd (run h (askAppChoice isIOS title message)) = Fulfilled v ->
  v = VNull
  \/ (isIOS = true /\ v = VUndefined)
  \/ exists app,
      v = VStr app /\ In app apps
      /\ answers_yes h (get (prefixes isIOS) app) = true.
Proof.
  destruct (run_askAppChoice_full isIOS h title message) as [o [E [_ [Hvalue _]]]].
  rewrite E. cbn [snd]. intros Ho.
  destruct (Hvalue v Ho) as [H | [H | [a [Ha H]]]]; [auto | auto |].
  right. right. exists a. unfold available in Ha. apply filter_In in Ha.
  destruct Ha as [Hin Hyes]. auto.
Qed.

Lemma askAppChoice_resolves_available_witness :
  snd (run everything_installed (askAppChoice false VUndefined VUndefined))
  = Fulfilled (VStr "citymapper")
  /\ (VStr "citymapper" = VNull
      \/ (false = true /\ VStr "citymapper" = VUndefined)
      \/ exists app,
          VStr "citymapper" = VStr app /\ In app apps
          /\ answers_yes everything_installed (get (prefixes false) app) = true).
Proof.
  split; [reflexivity |].
  apply (askAppChoice_resolves_available false everything_installed VUndefined VUndefined).
  reflexivity.
Defined.

(** X7: there is no timeout: with two or more providers available and a
    prompt that is never answered, the promise of [askAppChoice] stays
    pending, after the ten probes and the prompt. *)
Theorem askAppChoice_unanswered (isIOS : bool) (h : host) (title message : value) :
  (2 <= List.length (available isIOS h))%nat ->
  unanswered isIOS h (default title default_title) (default message default_message)
             (available isIOS h) ->
  run h (askAppChoice isIOS title message)
  = ((probes isIOS ++ [prompt isIOS (default title default_title)
                              (default message default_message) (available isIOS h)])%list,
     Unsettled).
Proof.
  intros Hlen Hquiet.
  destruct (run_askAppChoice_full isIOS h title message) as [o [E [_ [_ Ho]]]].
  rewrite E, (Ho Hlen Hquiet). unfold presented.
  destruct (List.length (available isIOS h) <? 2)%nat eqn:El; [| reflexivity].
  apply Nat.ltb_lt in El. lia.
Qed.

Lemma askAppChoice_unanswered_witness :
  (2 <= List.length (available true nobody_answers))%nat
  /\ unanswered true nobody_answers default_title default_message
                (available true nobody_answers)
  /\ snd (run nobody_answers (askAppChoice true VUndefined VUndefined)) = Unsettled.
Proof.
  assert (2 <= List.length (available true nobody_answers))%nat as Hlen.
  { vm_compute. repeat constructor. }
  split; [exact Hlen |]. split; [reflexivity |].
  rewrite (askAppChoice_unanswered true nobody_answers VUndefined VUndefined Hlen);
    reflexivity.
Defined.

(** ** showLocation, on every platform *)

(** The [switch]: a URL that starts with the prefix of the provider, for
    the nine providers with a rule, and [null] for every other value. *)
Lemma format_url_cases (isIOS : bool) (app : value) (lat lng : number)
      (title address : value) :
  (exists id rest,
      app = VStr id /\ In id apps /\ id <> "navigon"
      /\ format_url isIOS app lat lng title address
         = VStr (ToString (get (prefixes isIOS) id) ++ rest))
  \/ (format_url isIOS app lat lng title address = VNull
      /\ forall id, app = VStr id -> In id apps -> id = "navigon").
Proof.
  destruct app as [| | b | n | s | own | f |];
    try (right; split; [reflexivity | discriminate]).
  unfold format_url. cbn [strict_eq_string].
  repeat match goal with
         | |- context [(s =? ?k)%string] =>
           let E := fresh "E" in
           destruct (s =? k)%string eqn:E;
             [apply String.eqb_eq in E; subst s; left;
              destruct isIOS; destruct (truthy title);
              eexists _, _; (split; [reflexivity |]);
              (split; [simpl; tauto |]); (split; [discriminate |]);
              rewrite ?append_assoc; reflexivity |]
         end.
  right. split; [reflexivity |].
  intros id [= <-] Hin.
  repeat match goal with
         | E : (_ =? _)%string = false |- _ => apply String.eqb_neq in E
         end.
  unfold apps in Hin. simpl in Hin.
  repeat (destruct Hin as [<- | Hin]; [first [reflexivity | congruence] |]).
  contradiction.
Qed.

(** A valid request, step by step: the provider is the given one, with no
    call to the platform, or the one [askAppChoice] resolves; then its URL,
    if it has one, is launched and the promise of the launch is returned. *)
Lemma run_showLocation_valid (isIOS : bool) (h : host) (options : value) :
  validate options = None ->
  exists t choice,
    (truthy (get options "app") = true /\ t = []
     /\ choice = Fulfilled (get options "app")
     \/ truthy (get options "app") = false
        /\ run h (askAppChoice isIOS VUndefined VUndefined) = (t, choice))
    /\ run h (showLocation isIOS options)
       = match choice with
         | Fulfilled app =>
           let url := format_url isIOS app
                                 (parseFloat (get options "latitude"))
                                 (parseFloat (get options "longitude"))
                                 (nonempty_or_null (get options "title"))
                                 (nonempty_or_null (get options "address")) in
           if truthy url then ((t ++ [EOpenURL url])%list, settle (openURL h url))
           else (t, Fulfilled VUndefined)
         | Failed e => (t, Failed e)
         | Unsettled => (t, Unsettled)
         end.
Proof.
  intros Hv. unfold showLocation. rewrite Hv.
  destruct (truthy (get options "app")) eqn:Ht.
  - exists [], (Fulfilled (get options "app")). split; [left; auto |].
    destruct (validated_text options "app" Hv) as [s [Hs Hne]]; auto.
    assert (nonempty_or_null (VStr s) = VStr s) as Hnorm.
    { unfold nonempty_or_null. cbn [truthy length_truthy]. rewrite Hne. reflexivity. }
    rewrite Hs, Hnorm. rewrite Hs in Ht. rewrite Ht. cbn [negb bind List.app].
    match goal with |- context [truthy ?u] => destruct (truthy u) end; cbn [run].
    + match goal with |- context [openURL h ?u] => destruct (openURL h u) end; reflexivity.
    + reflexivity.
  - destruct (run h (askAppChoice isIOS VUndefined VUndefined)) as [t choice] eqn:E.
    exists t, choice. split; [right; auto |].
    rewrite (falsy_nonempty_or_null _ Ht). cbn [truthy negb].
    rewrite run_bind, E. destruct choice as [app | e |]; try reflexivity.
    cbv zeta.
    match goal with |- context [truthy ?u] => destruct (truthy u) end; cbn [run].
    + match goal with |- context [openURL h ?u] => destruct (openURL h u) end; reflexivity.
    + rewrite app_nil_r. reflexivity.
Qed.

Lemma validated_app (options : value) :
  validate options = None -> app_ok (get options "app").
Proof.
  intros Hv. apply app_check. unfold validate in Hv.
  repeat match type of Hv with
         | (if ?c then _ else _) = None => destruct c eqn:?; [discriminate |]
         end.
  reflexivity.
Qed.

Lemma prefixed_truthy (isIOS : bool) (id rest : string) :
  In id apps -> truthy (VStr (ToString (get (prefixes isIOS) id) ++ rest)) = true.
Proof. revert id. apply registered_cases; destruct isIOS; reflexivity. Qed.

Lemma probes_no_launch (isIOS : bool) (avail : list string) (title message : value) :
  existsb is_launch (probes isIOS ++ presented isIOS title message avail)%list = false.
Proof.
  rewrite existsb_app. unfold presented, prompt.
  destruct (List.length avail <? 2)%nat; destruct isIOS; reflexivity.
Qed.

(** The ways a valid request can go. *)
Lemma run_showLocation_shape (isIOS : bool) (h : host) (options : value) :
  validate options = None ->
  exists t,
    (truthy (get options "app") = true /\ t = []
     \/ truthy (get options "app") = false
        /\ t = (probes isIOS
                ++ presented isIOS default_title default_message (available isIOS h))%list)
    /\ (run h (showLocation isIOS options) = (t, Fulfilled VUndefined)
        \/ run h (showLocation isIOS options) = (t, Unsettled)
        \/ exists id rest,
            In id apps /\ id <> "navigon"
            /\ run h (showLocation isIOS options)
               = ((t ++ [EOpenURL (VStr (ToString (get (prefixes isIOS) id) ++ rest))])%list,
                  settle (openURL h (VStr (ToString (get (prefixes isIOS) id) ++ rest))))).
Proof.
  intros Hv.
  destruct (run_showLocation_valid isIOS h options Hv) as [t [choice [Hchoice Hrun]]].
  exists t. rewrite Hrun. clear Hrun.
  assert (forall app, choice = Fulfilled app ->
            (let url := format_url isIOS app
                                   (parseFloat (get options "latitude"))
                                   (parseFloat (get options "longitude"))
                                   (nonempty_or_null (get options "title"))
                                   (nonempty_or_null (get options "address")) in
             if truthy url then ((t ++ [EOpenURL url])%list, settle (openURL h url))
             else (t, Fulfilled VUndefined)) = (t, Fulfilled VUndefined)
            \/ exists id rest,
                In id apps /\ id <> "navigon"
                /\ (let url := format_url isIOS app
                                          (parseFloat (get options "latitude"))
                                          (parseFloat (get options "longitude"))
                                          (nonempty_or_null (get options "title"))
                                          (nonempty_or_null (get options "address")) in
                    if truthy url then ((t ++ [EOpenURL url])%list, settle (openURL h url))
                    else (t, Fulfilled VUndefined))
                   = ((t ++ [EOpenURL (VStr (ToString (get (prefixes isIOS) id) ++ rest))])%list,
                      settle (openURL h (VStr (ToString (get (prefixes isIOS) id) ++ rest)))))
    as Hlaunch.
  { intros app _. cbv zeta.
    destruct (format_url_cases isIOS app (parseFloat (get options "latitude"))
                               (parseFloat (get options "longitude"))
                               (nonempty_or_null (get options "title"))
                               (nonempty_or_null (get options "address")))
      as [[id [rest [_ [Hin [Hnav ->]]]]] | [-> _]].
    - right. exists id, rest. rewrite (prefixed_truthy isIOS id rest Hin). auto.
    - left. reflexivity. }
  destruct Hchoice as [[Ht [-> ->]] | [Ht Haskrun]].
  - split; [left; auto |].
    destruct (Hlaunch _ eq_refl) as [H | H]; [left; exact H | right; right; exact H].
  - destruct (run_askAppChoice_full isIOS h VUndefined VUndefined)
      as [o [E [Hfail _]]].
    rewrite E in Haskrun. injection Haskrun as <- <-.
    split; [right; auto |].
    destruct o as [app | e |].
    + destruct (Hlaunch _ eq_refl) as [H | H]; [left; exact H | right; right; exact H].
    + exfalso. exact (Hfail e eq_refl).
    + right. left. reflexivity.
Qed.

(** X8: a valid request that names its provider never asks the platform
    whether that provider is installed and never prompts: for [navigon]
    nothing is called at all; for the other nine the one call is the launch
    of a URL that starts with the prefix of the provider, and the promise
    ends as the launch does, a rejection of the launch being passed on as
    it is. *)
Theorem showLocation_given_app (isIOS : bool) (h : host) (options : value) :
  validate options = None ->
  convertible options ->
  truthy (get options "app") = true ->
  get options "app" = VStr "navigon"
  /\ run h (showLocation isIOS options) = ([], Fulfilled VUndefined)
  \/ exists id rest,
      get options "app" = VStr id /\ In id apps /\ id <> "navigon"
      /\ run h (showLocation isIOS options)
         = ([EOpenURL (VStr (ToString (get (prefixes isIOS) id) ++ rest))],
            settle (openURL h (VStr (ToString (get (prefixes isIOS) id) ++ rest)))).
Proof.
  intros Hv _ Ht.
  destruct (run_showLocation_valid isIOS h options Hv) as [t [choice [Hchoice Hrun]]].
  destruct Hchoice as [[_ [-> ->]] | [Hf _]]; [| congruence].
  rewrite Hrun. clear Hrun. cbv zeta.
  destruct (validated_app options Hv) as [Hf | [a [Ha Happ]]]; [congruence |].
  destruct (format_url_cases isIOS (get options "app")
                             (parseFloat (get options "latitude"))
                             (parseFloat (get options "longitude"))
                             (nonempty_or_null (get options "title"))
                             (nonempty_or_null (get options "address")))
    as [[id [rest [Hid [Hin [Hnav ->]]]]] | [-> Honly]].
  - right. exists id, rest. rewrite (prefixed_truthy isIOS id rest Hin). auto.
  - left. split; [| reflexivity].
    rewrite Happ. f_equal. apply Honly; assumption.
Qed.

Lemma showLocation_given_app_witness :
  validate uber_request = None
  /\ convertible uber_request
  /\ truthy (get uber_request "app") = true
  /\ (get uber_request "app" = VStr "navigon"
      /\ run launch_fails (showLocation true uber_request) = ([], Fulfilled VUndefined)
      \/ exists id rest,
          get uber_request "app" = VStr id /\ In id apps /\ id <> "navigon"
          /\ run launch_fails (showLocation true uber_request)
             = ([EOpenURL (VStr (ToString (get (prefixes true) id) ++ rest))],
                settle (openURL launch_fails
                                (VStr (ToString (get (prefixes true) id) ++ rest))))).
Proof.
  split; [reflexivity |]. split; [split; exact I |]. split; [reflexivity |].
  apply (showLocation_given_app true launch_fails uber_request);
    [reflexivity | split; exact I | reflexivity].
Defined.

(** X9: every run of [showLocation], on every input and platform, is of
    one of three kinds.  It throws a [MapsException] before any call; or it
    launches nothing and resolves [undefined] or stays pending; or it ends
    with exactly one launch, of a URL that starts with the prefix of a
    provider with a formatting rule, and ends as that launch does.  Before
    the launch there is nothing, or the ten probes and at most one prompt. *)
Theorem showLocation_outcomes (isIOS : bool) (h : host) (options : value) :
  convertible options ->
  (exists message,
      run h (showLocation isIOS options) = ([], Failed (MapsException message)))
  \/ exists t,
      (t = []
       \/ t = (probes isIOS
               ++ presented isIOS default_title default_message (available isIOS h))%list)
      /\ existsb is_launch t = false
      /\ (run h (showLocation isIOS options) = (t, Fulfilled VUndefined)
          \/ run h (showLocation isIOS options) = (t, Unsettled)
          \/ exists id rest,
              In id apps /\ id <> "navigon"
              /\ run h (showLocation isIOS options)
                 = ((t ++ [EOpenURL (VStr (ToString (get (prefixes isIOS) id) ++ rest))])%list,
                    settle (openURL h (VStr (ToString (get (prefixes isIOS) id) ++ rest))))).
Proof.
  intros _. destruct (validate options) as [e |] eqn:Hv.
  - left. destruct (validate_MapsException _ _ Hv) as [message ->].
    exists message. unfold showLocation. rewrite Hv. reflexivity.
  - right. destruct (run_showLocation_shape isIOS h options Hv) as [t [Ht Hrun]].
    exists t. split; [tauto |]. split; [| exact Hrun].
    destruct Ht as [[_ ->] | [_ ->]]; [reflexivity | apply probes_no_launch].
Qed.

Lemma showLocation_outcomes_witness :
  convertible plain_request
  /\ run everything_installed (showLocation false plain_request)
     = ((probes false
         ++ presented false default_title default_message
                      (available false everything_installed)
         ++ [EOpenURL (VStr "citymapper://directions?endcoord=1,2")])%list,
        Fulfilled VUndefined)
  /\ ((exists message,
          run everything_installed (showLocation false plain_request)
          = ([], Failed (MapsException message)))
      \/ exists t,
          (t = []
           \/ t = (probes false
                   ++ presented false default_title default_message
                                (available false everything_installed))%list)
          /\ existsb is_launch t = false
          /\ (run everything_installed (showLocation false plain_request)
              = (t, Fulfilled VUndefined)
              \/ run everything_installed (showLocation false plain_request)
                 = (t, Unsettled)
              \/ exists id rest,
                  In id apps /\ id <> "navigon"
                  /\ run everything_installed (showLocation false plain_request)
                     = ((t ++ [EOpenURL (VStr (ToString (get (prefixes false) id) ++ rest))])%list,
                        settle (openURL everything_installed
                                        (VStr (ToString (get (prefixes false) id) ++ rest)))))).
Proof.
  split; [split; exact I |]. split; [reflexivity |].
  apply (showLocation_outcomes false everything_installed plain_request).
  split; exact I.
Defined.

(** X10: when no provider is named and [askAppChoice] resolves [null]
    (nothing available, or Cancel), [undefined], or [navigon], which has no
    formatting rule although the prompt offers it, [showLocation] launches
    nothing and resolves [undefined]: its calls are those of
    [askAppChoice]. *)
Theorem showLocation_nothing_to_launch (isIOS : bool) (h : host) (options v : value) :
  validate options = None ->
  convertible options ->
  truthy (get options "app") = false ->
  snd (run h (askAppChoice isIOS VUndefined VUndefined)) = Fulfilled v ->
  v = VNull \/ v = VUndefined \/ v = VStr "navigon" ->
  run h (showLocation isIOS options)
  = (fst (run h (askAppChoice isIOS VUndefined VUndefined)), Fulfilled VUndefined).
Proof.
  intros Hv _ Hf Hask Hnone.
  destruct (run_showLocation_valid isIOS h options Hv) as [t [choice [Hchoice Hrun]]].
  destruct Hchoice as [[Ht _] | [_ E]]; [congruence |].
  rewrite E in *. cbn [fst snd] in *. subst choice. rewrite Hrun.
  destruct Hnone as [-> | [-> | ->]]; reflexivity.
Qed.

Lemma showLocation_nothing_to_launch_witness :
  (validate plain_request = None
   /\ snd (run nothing_installed (askAppChoice true VUndefined VUndefined))
      = Fulfilled VNull
   /\ run nothing_installed (showLocation true plain_request)
      = (probes true, Fulfilled VUndefined))
  /\ (snd (run user_picks_navigon (askAppChoice false VUndefined VUndefined))
      = Fulfilled (VStr "navigon")
      /\ snd (run user_picks_navigon (showLocation false plain_request))
         = Fulfilled VUndefined).
Proof.
  split; (split; [reflexivity |]).
  - split; [reflexivity |].
    rewrite (showLocation_nothing_to_launch true nothing_installed plain_request VNull);
      try reflexivity; [split; exact I | left; reflexivity].
  - rewrite (showLocation_nothing_to_launch false user_picks_navigon plain_request
                                            (VStr "navigon"));
      try reflexivity; [split; exact I | right; right; reflexivity].
Defined.

(** X11: [showLocation] waits for the choice without a timeout: for a valid
    request that names no provider, with two or more providers available
    and a prompt that is never answered, the promise stays pending after
    the ten probes and the prompt, and nothing is launched. *)
Theorem showLocation_pending (isIOS : bool) (h : host) (options : value) :
  validate options = None ->
  convertible options ->
  truthy (get options "app") = false ->
  (2 <= List.length (available isIOS h))%nat ->
  unanswered isIOS h default_title default_message (available isIOS h) ->
  run h (showLocation isIOS options)
  = ((probes isIOS
      ++ [prompt isIOS default_title default_message (available isIOS h)])%list,
     Unsettled).
Proof.
  intros Hv _ Hf Hlen Hquiet.
  destruct (run_showLocation_valid isIOS h options Hv) as [t [choice [Hchoice Hrun]]].
  destruct Hchoice as [[Ht _] | [_ E]]; [congruence |].
  destruct (run_askAppChoice_full isIOS h VUndefined VUndefined) as [o [E' [_ [_ Ho]]]].
  rewrite E' in E. injection E as <- <-.
  rewrite Hrun, (Ho Hlen Hquiet). unfold presented.
  destruct (List.length (available isIOS h) <? 2)%nat eqn:El; [| reflexivity].
  apply Nat.ltb_lt in El. lia.
Qed.

Lemma showLocation_pending_witness :
  validate plain_request = None
  /\ (2 <= List.length (available false nobody_answers))%nat
  /\ unanswered false nobody_answers default_title default_message
                (available false nobody_answers)
  /\ snd (run nobody_answers (showLocation false plain_request)) = Unsettled.
Proof.
  assert (2 <= List.length (available false nobody_answers))%nat as Hlen.
  { vm_compute. repeat constructor. }
  split; [reflexivity |]. split; [exact Hlen |]. split; [reflexivity |].
  rewrite (showLocation_pending false nobody_answers plain_request);
    [reflexivity | reflexivity | split; exact I | reflexivity | exact Hlen | reflexivity].
Defined.

(** X12: when the provider is chosen and not named, what is launched was
    probed first: every URL that [showLocation] launches for a valid
    request without [app] starts with the prefix of a registered provider
    for which the platform answered the probe with yes. *)
Theorem showLocation_launches_available (isIOS : bool) (h : host) (options url : value) :
  validate options = None ->
  convertible options ->
  truthy (get options "app") = false ->
  In (EOpenURL url) (fst (run h (showLocation isIOS options))) ->
  exists id rest,
    url = VStr (ToString (get (prefixes isIOS) id) ++ rest)
    /\ In id apps
    /\ answers_yes h (get (prefixes isIOS) id) = true.
Proof.
  intros Hv _ Hf Hin.
  destruct (run_showLocation_valid isIOS h options Hv) as [t [choice [Hchoice Hrun]]].
  destruct Hchoice as [[Ht _] | [_ E]]; [congruence |].
  destruct (run_askAppChoice_full isIOS h VUndefined VUndefined)
    as [o [E' [_ [Hvalue _]]]].
  rewrite E' in E. injection E as <- <-.
  assert (~ In (EOpenURL url)
            (probes isIOS
             ++ presented isIOS (default VUndefined default_title)
                          (default VUndefined default_message) (available isIOS h))%list)
    as Hquiet.
  { intros H.
    assert (existsb is_launch
                    (probes isIOS
                     ++ presented isIOS (default VUndefined default_title)
                                  (default VUndefined default_message)
                                  (available isIOS h))%list = true) as Hl.
    { apply existsb_exists. exists (EOpenURL url). split; [exact H | reflexivity]. }
    rewrite probes_no_launch in Hl. discriminate. }
  rewrite Hrun in Hin. clear Hrun.
  destruct o as [app | e |]; cbn [fst] in Hin; try contradiction.
  cbv zeta in Hin.
  destruct (format_url_cases isIOS app (parseFloat (get options "latitude"))
                             (parseFloat (get options "longitude"))
                             (nonempty_or_null (get options "title"))
                             (nonempty_or_null (get options "address")))
    as [[id [rest [Hid [Hreg [Hnav Hurl]]]]] | [Hurl _]];
    rewrite Hurl in Hin.
  - rewrite (prefixed_truthy isIOS id rest Hreg) in Hin. cbn [fst] in Hin.
    apply in_app_or in Hin. destruct Hin as [Hin | [Hin | []]]; [contradiction |].
    injection Hin as <-. exists id, rest. split; [reflexivity |]. split; [exact Hreg |].
    destruct (Hvalue app eq_refl) as [H | [[_ H] | [a [Ha H]]]];
      try (rewrite H in Hid; discriminate).
    rewrite H in Hid. injection Hid as <-.
    unfold available in Ha. apply filter_In in Ha. tauto.
  - cbn [truthy fst] in Hin. contradiction.
Qed.

Lemma showLocation_launches_available_witness :
  validate plain_request = None
  /\ In (EOpenURL (VStr "citymapper://directions?endcoord=1,2"))
        (fst (run everything_installed (showLocation false plain_request)))
  /\ exists id rest,
      VStr "citymapper://directions?endcoord=1,2"
      = VStr (ToString (get (prefixes false) id) ++ rest)
      /\ In id apps
      /\ answers_yes everything_installed (get (prefixes false) id) = true.
Proof.
  assert (In (EOpenURL (VStr "citymapper://directions?endcoord=1,2"))
             (fst (run everything_installed (showLocation false plain_request)))) as Hin.
  { vm_compute. tauto. }
  split; [reflexivity |]. split; [exact Hin |].
  apply (showLocation_launches_available false everything_installed plain_request);
    [reflexivity | split; exact I | reflexivity | exact Hin].
Defined.

(** ** The URLs *)

Lemma present_Some (v : value) (s : string) :
  present v = Some s -> v = VStr s /\ (s =? EmptyString)%string = false.
Proof.
  destruct v as [| | b | n | s' | own | f |]; try discriminate. simpl.
  destruct (s' =? EmptyString)%string eqn:E; [discriminate |].
  intros [= <-]. auto.
Qed.

(** After validation, [title] and [address] as [format_url] gets them. *)
Ltac normalized Hv :=
  rewrite (validated_nonempty_or_null _ "title" Hv),
    (validated_nonempty_or_null _ "address" Hv) by auto;
  repeat match goal with
         | |- context [present ?v] =>
           let s := fresh "s" in
           let E := fresh "E" in
           destruct (present v) as [s |] eqn:E;
           [apply present_Some in E; destruct E as [_ E];
            assert (truthy (VStr s) = true)
              by (cbn [truthy]; rewrite E; reflexivity);
            clear E
           | clear E]
         end;
  unfold format_url, or;
  repeat (first [ match goal with
                  | H : truthy (VStr ?s) = true |- context [truthy (VStr ?s)] =>
                    rewrite H
                  end
                | progress change (truthy VNull) with false ];
          cbv iota).

(** X13: for a valid request with [app: 'moovit'] the launched URL is
    [moovit://directions?dest_lat=], the latitude, [&dest_lon] and, with no
    [=] in between, the longitude; [&dest_name=] and the encoded title
    follow exactly when a title is given; the address is not used. *)
Theorem showLocation_moovit (isIOS : bool) (options : value) :
  validate options = None ->
  convertible options ->
  get options "app" = VStr "moovit" ->
  let lat := Number_toString (parseFloat (get options "latitude")) in
  let lng := Number_toString (parseFloat (get options "longitude")) in
  let url := ("moovit://" ++ "directions?dest_lat=" ++ lat ++ "&dest_lon" ++ lng)%string in
  showLocation isIOS options
  = OpenURL (VStr match present (get options "title") with
                  | Some title => (url ++ "&dest_name=" ++ encodeURIComponent title)%string
                  | None => url
                  end) await.
Proof.
  intros Hv _ Happ lat lng url. unfold showLocation. rewrite Hv, Happ.
  normalized Hv; reflexivity.
Qed.

Lemma showLocation_moovit_witness :
  validate moovit_request = None
  /\ showLocation false moovit_request
     = OpenURL (VStr "moovit://directions?dest_lat=1&dest_lon2&dest_name=Home") await.
Proof.
  split; [reflexivity |].
  exact (showLocation_moovit false moovit_request eq_refl (conj I I) eq_refl).
Defined.

(** X14: for a valid request with [app: 'google-maps'], off iOS the
    launched URL is [https://maps.google.com/?q=] and the coordinates,
    title and address being left out; on iOS it is
    [comgooglemaps://?api=1&ll=], the coordinates, and [&q=] with the
    encoded address if one is given, else the title if one is given, else
    [Location]. *)
Theorem showLocation_google_maps_url (isIOS : bool) (options : value) :
  validate options = None ->
  convertible options ->
  get options "app" = VStr "google-maps" ->
  let lat := Number_toString (parseFloat (get options "latitude")) in
  let lng := Number_toString (parseFloat (get options "longitude")) in
  let q := match present (get options "address"), present (get options "title") with
           | Some address, _ => address
           | None, Some title => title
           | None, None => "Location"
           end in
  showLocation isIOS options
  = OpenURL (VStr (if isIOS
                   then "comgooglemaps://" ++ "?api=1&ll=" ++ lat ++ "," ++ lng
                        ++ "&q=" ++ encodeURIComponent q
                   else "https://maps.google.com/" ++ "?q=" ++ lat ++ "," ++ lng)%string)
            await.
Proof.
  intros Hv _ Happ lat lng q. unfold showLocation. rewrite Hv, Happ. subst q.
  normalized Hv; destruct isIOS; reflexivity.
Qed.

Lemma showLocation_google_maps_url_witness :
  validate google_maps_ios_request = None
  /\ showLocation true google_maps_ios_request
     = OpenURL (VStr "comgooglemaps://?api=1&ll=1,2&q=1%20Main%20St") await.
Proof.
  split; [reflexivity |].
  exact (showLocation_google_maps_url true google_maps_ios_request eq_refl (conj I I)
                                      eq_refl).
Defined.

(** X15: for a valid request with [app: 'apple-maps'] the launched URL is
    the prefix of the platform, [?ll=] and the coordinates, [&q=] with the
    encoded title, or [Location] when no title is given, and [&address=]
    with the encoded address, or nothing when no address is given. *)
Theorem showLocation_apple_maps (isIOS : bool) (options : value) :
  validate options = None ->
  convertible options ->
  get options "app" = VStr "apple-maps" ->
  let lat := Number_toString (parseFloat (get options "latitude")) in
  let lng := Number_toString (parseFloat (get options "longitude")) in
  let q := match present (get options "title") with
           | Some title => title
           | None => "Location"
           end in
  let address := match present (get options "address") with
                 | Some address => address
                 | None => EmptyString
                 end in
  showLocation isIOS options
  = OpenURL (VStr ((if isIOS then "http://maps.apple.com/" else "applemaps://")
                   ++ "?ll=" ++ lat ++ "," ++ lng
                   ++ "&q=" ++ encodeURIComponent q
                   ++ "&address=" ++ encodeURIComponent address)%string)
            await.
Proof.
  intros Hv _ Happ lat lng q address. unfold showLocation. rewrite Hv, Happ.
  subst q address.
  normalized Hv; destruct isIOS; reflexivity.
Qed.

Lemma showLocation_apple_maps_witness :
  validate apple_maps_request = None
  /\ showLocation false apple_maps_request
     = OpenURL (VStr "applemaps://?ll=1,2&q=Location&address=") await.
Proof.
  split; [reflexivity |].
  exact (showLocation_apple_maps false apple_maps_request eq_refl (conj I I) eq_refl).
Defined.

(** X16: which inputs a URL depends on.  The URLs of lyft, transit, waze
    and yandex, and that of google-maps off iOS, use neither the title nor
    the address; those of citymapper, uber and moovit do not use the
    address; and only apple-maps and google-maps differ between the two
    platforms. *)
Theorem format_url_uses (isIOS : bool) (id : string) (lat lng : number)
        (title address title' address' : value) :
  (In id ["lyft"; "transit"; "waze"; "yandex"] \/ id = "google-maps" /\ isIOS = false ->
   format_url isIOS (VStr id) lat lng title address
   = format_url isIOS (VStr id) lat lng title' address')
  /\ (In id ["citymapper"; "uber"; "moovit"] ->
      format_url isIOS (VStr id) lat lng title address
      = format_url isIOS (VStr id) lat lng title address')
  /\ (id <> "apple-maps" -> id <> "google-maps" ->
      format_url true (VStr id) lat lng title address
      = format_url false (VStr id) lat lng title address).
Proof.
  split; [| split].
  - intros [H | [-> ->]]; [| reflexivity].
    simpl in H. repeat (destruct H as [<- | H]; [reflexivity |]). contradiction.
  - intros H. simpl in H. repeat (destruct H as [<- | H]; [reflexivity |]). contradiction.
  - intros Happle Hgoogle. apply String.eqb_neq in Happle, Hgoogle.
    unfold format_url. cbn [strict_eq_string]. rewrite Happle, Hgoogle. reflexivity.
Qed.

Lemma format_url_uses_witness :
  format_url true (VStr "waze") lit_1 lit_2 (VStr "Home") (VStr "1 Main St")
  = format_url true (VStr "waze") lit_1 lit_2 VNull VNull
  /\ format_url true (VStr "uber") lit_1 lit_2 (VStr "Home") (VStr "1 Main St")
     = format_url true (VStr "uber") lit_1 lit_2 (VStr "Home") VNull
  /\ format_url true (VStr "lyft") lit_1 lit_2 VNull VNull
     = format_url false (VStr "lyft") lit_1 lit_2 VNull VNull.
Proof.
  split; [| split].
  - apply (proj1 (format_url_uses true "waze" lit_1 lit_2 (VStr "Home") (VStr "1 Main St")
                                  VNull VNull)).
    left. simpl. tauto.
  - apply (proj1 (proj2 (format_url_uses true "uber" lit_1 lit_2 (VStr "Home")
                                         (VStr "1 Main St") VNull VNull))).
    simpl. tauto.
  - apply (proj2 (proj2 (format_url_uses true "lyft" lit_1 lit_2 VNull VNull VNull VNull)));
      discriminate.
Defined.

(** ** Coercions of the runtime, as [showLocation] uses them *)

(** X17: a coordinate that is neither a number nor a string (undefined,
    null, a boolean, an object that does not redefine [toString], a
    built-in function) is coerced to NaN by [parseFloat]: it is the text of
    the value that is parsed, and none of these texts starts with a
    number. *)
Theorem parseFloat_not_a_number (v : value) :
  typeof v <> "number" ->
  typeof v <> "string" ->
  converts v ->
  parseFloat v = NaN /\ Number_toString (parseFloat v) = "NaN".
Proof.
  intros Hnum Hstr _.
  assert (parseFloat v = NaN) as E.
  { destruct v as [| | b | n | s | own | f |]; try reflexivity.
    - destruct b; reflexivity.
    - exfalso. apply Hnum. reflexivity.
    - exfalso. apply Hstr. reflexivity. }
  rewrite E. split; reflexivity.
Qed.

Lemma parseFloat_not_a_number_witness :
  typeof VNull <> "number"
  /\ parseFloat VNull = NaN
  /\ converts (VObject [("lat", VNum lit_1)])
  /\ parseFloat (VObject [("lat", VNum lit_1)]) = NaN.
Proof.
  split; [discriminate |]. split; [| split; [reflexivity |]].
  - apply (parseFloat_not_a_number VNull); [discriminate | discriminate | exact I].
  - apply (parseFloat_not_a_number (VObject [("lat", VNum lit_1)]));
      [discriminate | discriminate | reflexivity].
Defined.

Lemma hex_digit_unreserved (c : ascii) :
  unreserved (hex_digit (byte c / 16)) = true
  /\ unreserved (hex_digit (byte c mod 16)) = true.
Proof. destruct c as [[] [] [] [] [] [] [] []]; split; vm_compute; reflexivity. Qed.

(** X18: the text that [encodeURIComponent] puts into a URL is made of
    unreserved characters and [%] only, so a title or an address cannot add
    a [&], [=], [?], [#], [/] or a space to the URL; text that is all
    unreserved is left as it is. *)
Theorem encodeURIComponent_safe (s : string) :
  (forall c, In c (list_ascii_of_string (encodeURIComponent s)) ->
             (unreserved c = true \/ c = "%"%char)
             /\ c <> "&"%char /\ c <> "="%char /\ c <> "?"%char /\ c <> "#"%char
             /\ c <> "/"%char /\ c <> " "%char)
  /\ (forallb unreserved (list_ascii_of_string s) = true -> encodeURIComponent s = s).
Proof.
  assert (forall c, unreserved c = true \/ c = "%"%char ->
                    (unreserved c = true \/ c = "%"%char)
                    /\ c <> "&"%char /\ c <> "="%char /\ c <> "?"%char /\ c <> "#"%char
                    /\ c <> "/"%char /\ c <> " "%char) as Hsafe.
  { intros c H. split; [exact H |].
    repeat split; intros ->; destruct H as [H | H]; discriminate. }
  split.
  - induction s as [| a s IH]; cbn [encodeURIComponent list_ascii_of_string].
    + intros c [].
    + destruct (unreserved a) eqn:Ea; cbn [list_ascii_of_string].
      * intros c [<- | H]; [apply Hsafe; left; exact Ea | apply IH; exact H].
      * destruct (hex_digit_unreserved a) as [Hhi Hlo].
        intros c [<- | [<- | [<- | H]]];
          [apply Hsafe; right; reflexivity | apply Hsafe; left; exact Hhi
           | apply Hsafe; left; exact Hlo | apply IH; exact H].
  - induction s as [| a s IH]; cbn [encodeURIComponent list_ascii_of_string forallb];
      [reflexivity |].
    intros H. apply andb_true_iff in H as [Ha Hs]. rewrite Ha, (IH Hs). reflexivity.
Qed.

Lemma encodeURIComponent_safe_witness :
  forallb unreserved (list_ascii_of_string "Home") = true
  /\ encodeURIComponent "Home" = "Home".
Proof.
  split; [reflexivity |].
  apply (proj2 (encodeURIComponent_safe "Home")). reflexivity.
Defined.
